(** * BaseLoader: loading source data into the settings store

    A shallow embedding of [dynaconf/loaders/base.py].  The loader turns a
    filename specifier into a list of sources, reads them, and hands the data
    of each requested environment to the settings object ([obj.update] /
    [obj.set]), tagging every call with a loader identifier, a secrecy flag
    and a merge flag.

    Python values are a small inductive type with Python's truthiness, a
    [dict] is an insertion-ordered association list, and the methods of
    [BaseLoader] are programs in a monad that threads the settings object,
    records what the loader does to it (sink calls, log lines, the audit list
    of loaded files) and may raise. *)

From Stdlib Require Import String Ascii List Bool Arith ZArith Lia.
Import ListNotations.
Local Open Scope string_scope.
Local Open Scope list_scope.

(** ** Strings: the [str] methods the loader uses (ASCII) *)

Module Str.

Definition lower_ascii (c : ascii) : ascii :=
  let n := nat_of_ascii c in
  if ((65 <=? n) && (n <=? 90))%nat then ascii_of_nat (n + 32) else c.

Definition upper_ascii (c : ascii) : ascii :=
  let n := nat_of_ascii c in
  if ((97 <=? n) && (n <=? 122))%nat then ascii_of_nat (n - 32) else c.

Fixpoint map_chars (f : ascii -> ascii) (s : string) : string :=
  match s with
  | EmptyString => EmptyString
  | String c t => String (f c) (map_chars f t)
  end.

(** [s.lower()] and [s.upper()]. *)
Definition lower (s : string) : string := map_chars lower_ascii s.
Definition upper (s : string) : string := map_chars upper_ascii s.

(** [s.endswith(suffix)]. *)
Definition endswith (s suffix : string) : bool :=
  let n := String.length s in
  let m := String.length suffix in
  (m <=? n)%nat && (substring (n - m) m s =? suffix).

(** [s.endswith(suffixes)] for a tuple of suffixes. *)
Definition endswith_any (s : string) (suffixes : list string) : bool :=
  existsb (endswith s) suffixes.

(** [sub in s]. *)
Fixpoint contains (sub s : string) : bool :=
  prefix sub s ||
  match s with
  | EmptyString => false
  | String _ t => contains sub t
  end.

(** [os.path.split(s)[-1]]: what follows the last slash. *)
Fixpoint after_last_slash (s acc : string) : string :=
  match s with
  | EmptyString => acc
  | String c t =>
      if Ascii.eqb c "/"%char then after_last_slash t EmptyString
      else after_last_slash t (acc ++ String c EmptyString)
  end.

Definition basename (s : string) : string := after_last_slash s EmptyString.

(** Truthiness of a string: [bool(s)]. *)
Definition nonempty (s : string) : bool := negb (s =? "").

End Str.

(** ** Dictionaries: insertion-ordered, one entry per key *)

Module Dict.

Definition t (V : Type) : Type := list (string * V).

Section Ops.
Context {V : Type}.

(** [d.get(k)] / [d[k]] ([None] is the missing key). *)
Fixpoint get (k : string) (d : t V) : option V :=
  match d with
  | [] => None
  | (k', v) :: rest => if k' =? k then Some v else get k rest
  end.

(** [k in d]. *)
Definition mem (k : string) (d : t V) : bool :=
  match get k d with Some _ => true | None => false end.

(** [d[k] = v]: an existing key keeps its position, a new one goes last. *)
Fixpoint set (k : string) (v : V) (d : t V) : t V :=
  match d with
  | [] => [(k, v)]
  | (k', v') :: rest =>
      if k' =? k then (k', v) :: rest else (k', v') :: set k v rest
  end.

(** [del d[k]] for a key that may be absent. *)
Fixpoint remove (k : string) (d : t V) : t V :=
  match d with
  | [] => []
  | (k', v') :: rest =>
      if k' =? k then rest else (k', v') :: remove k rest
  end.

(** [d.pop(k, default)]: the value and the dictionary left behind. *)
Definition pop (k : string) (default : V) (d : t V) : V * t V :=
  match get k d with
  | Some v => (v, remove k d)
  | None => (default, d)
  end.

Definition keys (d : t V) : list string := map fst d.

(** [{f(k): v for k, v in d.items()}]. *)
Definition rekey (f : string -> string) (d : t V) : t V :=
  fold_left (fun acc kv => set (f (fst kv)) (snd kv) acc) d [].

End Ops.

End Dict.

(** ** Python values *)

#[warnings="-register-all"]
Inductive pyval : Type :=
| VNone
| VBool (b : bool)
| VInt (n : Z)
| VStr (s : string)
| VList (l : list pyval)
| VDict (d : list (string * pyval)).

Definition pydict : Type := Dict.t pyval.

Definition is_nil {A : Type} (l : list A) : bool :=
  match l with [] => true | _ :: _ => false end.

(** [bool(v)]. *)
Definition truthy (v : pyval) : bool :=
  match v with
  | VNone => false
  | VBool b => b
  | VInt n => negb (n =? 0)%Z
  | VStr s => Str.nonempty s
  | VList l => negb (is_nil l)
  | VDict d => negb (is_nil d)
  end.

(** [v is True]. *)
Definition is_True (v : pyval) : bool :=
  match v with VBool true => true | _ => false end.

(** [a or b]. *)
Definition py_or (a b : pyval) : pyval := if truthy a then a else b.

(** The [filename] argument of [load], and the value kept in the settings
    under the loader's name: nothing, one string, or a list of strings. *)
Inductive specifier : Type :=
| FNone
| FStr (s : string)
| FList (l : list string).

Definition spec_truthy (f : specifier) : bool :=
  match f with
  | FNone => false
  | FStr s => Str.nonempty s
  | FList l => negb (is_nil l)
  end.

(** The [key] argument: [None] or a string; [bool(key)]. *)
Definition key_truthy (key : option string) : bool :=
  match key with Some k => Str.nonempty k | None => false end.

(** ** What the loader does to the settings object *)

Inductive event : Type :=
| Update (data : pydict) (loader_identifier : string) (is_secret : bool)
         (merge : pyval)
| SetKey (key : string) (value : pyval) (loader_identifier : string)
         (is_secret : bool) (merge : pyval)
| LogWarning (msg : string)
| LogDebug (msg : string)
| LogData (head : string) (shown : list string + pydict)
| LoadedFile (source_file : string).

Definition is_sink_call (e : event) : bool :=
  match e with Update _ _ _ _ | SetKey _ _ _ _ _ => true | _ => false end.

Definition sink_calls (tr : list event) : list event := filter is_sink_call tr.

Definition merge_of (e : event) : option pyval :=
  match e with
  | Update _ _ _ m | SetKey _ _ _ _ m => Some m
  | _ => None
  end.

Inductive exn : Type :=
| KeyError (msg : string)
| AttributeError.

Inductive result (A : Type) : Type :=
| Ok (a : A)
| Raise (e : exn).

Arguments Ok {A} a.
Arguments Raise {A} e.

(** ** Collaborators that live outside [base.py]

    The settings object ([obj]) with its [get], [update] and [set]; and the
    helpers imported from [dynaconf.utils].  [obj_files] is [obj.get] read at
    a loader's name, where the value is a filename specifier. *)

Class Externals : Type := {
  Store : Type;
  obj_get : Store -> string -> pyval;
  obj_files : Store -> string -> specifier;
  obj_update : pydict -> string -> bool -> pyval -> Store -> Store;
  obj_set : string -> pyval -> string -> bool -> pyval -> Store -> Store;
  build_env_list : Store -> string -> list string;
  upperfy : string -> string;
  ensure_a_list : string -> list string
}.

(** The fields set by [BaseLoader.__init__].  [file_reader] stands for
    [io.open] followed by the format's reader: [None] is the [IOError] of a
    file that cannot be opened.  A reader returns a mapping; its falsy
    results are the empty one. *)
Record BaseLoader : Type := {
  env : string;
  identifier : string;
  extensions : list string;
  file_reader : string -> option pydict;
  string_reader : string -> pydict
}.

(** ** Sample collaborators, to run the loader on concrete inputs

    A settings object that is a dictionary of values: [get] is a lookup,
    [update] writes every entry, [set] writes one. *)

Module Sample.

Definition get (s : pydict) (name : string) : pyval :=
  match Dict.get name s with Some v => v | None => VNone end.

Fixpoint strings (l : list pyval) : list string :=
  match l with
  | VStr f :: rest => f :: strings rest
  | _ :: rest => strings rest
  | [] => []
  end.

Definition files (s : pydict) (name : string) : specifier :=
  match Dict.get name s with
  | Some (VStr f) => FStr f
  | Some (VList l) => FList (strings l)
  | _ => FNone
  end.

Definition update (data : pydict) (ident : string) (secret : bool)
    (merge : pyval) (s : pydict) : pydict :=
  fold_left (fun acc kv => Dict.set (fst kv) (snd kv) acc) data s.

Definition set (key : string) (v : pyval) (ident : string) (secret : bool)
    (merge : pyval) (s : pydict) : pydict :=
  Dict.set key v s.

(** Splitting a specifier at commas. *)
Fixpoint split_commas (s acc : string) : list string :=
  match s with
  | EmptyString => [acc]
  | String c rest =>
      if Ascii.eqb c ","%char then acc :: split_commas rest EmptyString
      else split_commas rest (acc ++ String c EmptyString)
  end.

(** Modelled from the spec: [upperfy], [ensure_a_list] and [build_env_list]
    are imported from [dynaconf.utils], which is not part of the sources
    here.  Following sections 4.1, 4.5 and 8 of the specification, keys are
    re-keyed to upper case, a specifier is split at a separator, and the
    environment list is ["default"] followed by the requested environment.
    The general theorems below do not depend on these choices. *)
Definition externals : Externals := {|
  Store := pydict;
  obj_get := get;
  obj_files := files;
  obj_update := update;
  obj_set := set;
  build_env_list := fun _ e => ["default"; e];
  upperfy := Str.upper;
  ensure_a_list := fun s => split_commas s EmptyString
|}.

(** The source of the specification's scenario (section 8). *)
Definition settings_toml : pydict :=
  [("development", VDict [("A", VInt 1); ("dynaconf_merge", VBool true)]);
   ("other", VDict [("A", VInt 2)])].

(** A source with a top-level merge flag and a block that carries its own. *)
Definition merged_toml : pydict :=
  [("dynaconf_merge", VBool true);
   ("development", VDict [("a", VInt 1); ("dynaconf_merge", VBool false)])].

Definition loader : BaseLoader := {|
  env := "development";
  identifier := "toml";
  extensions := [".toml"; ".tml"];
  file_reader := fun f =>
    if f =? "settings.toml" then Some settings_toml
    else if f =? "merged.toml" then Some merged_toml
    else if f =? "empty.toml" then Some []
    else None;
  string_reader := fun text =>
    if text =? "a = 1" then [("a", VInt 1)] else []
|}.

(** A second loader that reads [settings.toml] like the sample one and
    differs on every other source. *)
Definition other_loader : BaseLoader := {|
  env := "development";
  identifier := "toml";
  extensions := [".toml"; ".tml"];
  file_reader := fun f =>
    if f =? "settings.toml" then Some settings_toml
    else Some [("elsewhere", VInt 0)];
  string_reader := fun _ => [("elsewhere", VInt 0)]
|}.

Definition settings : pydict :=
  [("DEFAULT_ENV_FOR_DYNACONF", VStr "development");
   ("ENVVAR_PREFIX_FOR_DYNACONF", VStr "DYNACONF")].

End Sample.

(** ** More sample inputs *)

Module Cases.

(** The sample settings with envless mode switched on. *)
Definition envless_settings : pydict :=
  ("ENVLESS_MODE_FOR_DYNACONF", VBool true) :: Sample.settings.

(** A loader whose one file has "secret" in its name. *)
Definition secrets_loader : BaseLoader := {|
  env := "development";
  identifier := "toml";
  extensions := [".toml"; ".tml"];
  file_reader := fun f =>
    if f =? ".secrets.toml"
    then Some [("development", VDict [("password", VStr "hunter2")])]
    else None;
  string_reader := fun _ => []
|}.

(** Modelled from the spec: the sample collaborators with another
    environment list, the requested environment followed by "staging"
    (section 3 of the specification leaves the list to a collaborator that
    is not part of the sources here). *)
Definition staged : Externals := {|
  Store := pydict;
  obj_get := Sample.get;
  obj_files := Sample.files;
  obj_update := Sample.update;
  obj_set := Sample.set;
  build_env_list := fun _ e => [e; "staging"];
  upperfy := Str.upper;
  ensure_a_list := fun s => Sample.split_commas s EmptyString
|}.

(** A source that defines no environment of the sample list. *)
Definition other_toml : pydict := [("other", VDict [("A", VInt 2)])].

(** A loader whose one file is that source. *)
Definition other_toml_loader : BaseLoader := {|
  env := "development";
  identifier := "toml";
  extensions := [".toml"; ".tml"];
  file_reader := fun f => if f =? "other.toml" then Some other_toml else None;
  string_reader := fun _ => []
|}.

End Cases.

(** ** The loader's monad: settings state, a trace of effects, exceptions *)

Section Loader.
Context {X : Externals}.

Record run (A : Type) : Type := mkRun {
  trace : list event;
  final : Store;
  value : result A
}.

Arguments mkRun {A} _ _ _.
Arguments trace {A} _.
Arguments final {A} _.
Arguments value {A} _.

Definition M (A : Type) : Type := Store -> run A.

Definition ret {A : Type} (a : A) : M A := fun s => mkRun [] s (Ok a).

Definition bind {A B : Type} (m : M A) (f : A -> M B) : M B :=
  fun s =>
    let r1 := m s in
    match value r1 with
    | Ok a =>
        let r2 := f a (final r1) in
        mkRun (trace r1 ++ trace r2) (final r2) (value r2)
    | Raise e => mkRun (trace r1) (final r1) (Raise e)
    end.

Definition raise {A : Type} (e : exn) : M A := fun s => mkRun [] s (Raise e).

(** Reading the settings object. *)
Definition gets {A : Type} (f : Store -> A) : M A :=
  fun s => mkRun [] s (Ok (f s)).

(** An effect on the logger or on the audit list. *)
Definition emit (e : event) : M unit := fun s => mkRun [e] s (Ok tt).

(** [obj.update(data, loader_identifier=..., is_secret=..., merge=...)]. *)
Definition call_update (data : pydict) (ident : string) (secret : bool)
    (merge : pyval) : M unit :=
  fun s =>
    mkRun [Update data ident secret merge]
          (obj_update data ident secret merge s) (Ok tt).

(** [obj.set(key, value, loader_identifier=..., is_secret=..., merge=...)]. *)
Definition call_set (key : string) (v : pyval) (ident : string)
    (secret : bool) (merge : pyval) : M unit :=
  fun s =>
    mkRun [SetKey key v ident secret merge]
          (obj_set key v ident secret merge s) (Ok tt).

Notation "x <- m ;; k" := (bind m (fun x => k))
  (at level 61, m at next level, right associativity).
Notation "m ;;; k" := (bind m (fun _ => k))
  (at level 61, right associativity).

(** [for x in l: body(x)]. *)
Fixpoint for_each {A : Type} (body : A -> M unit) (l : list A) : M unit :=
  match l with
  | [] => ret tt
  | x :: rest => body x ;;; for_each body rest
  end.

(** A loop that carries a local variable. *)
Fixpoint for_fold {A B : Type} (body : B -> A -> M B) (l : list A) (acc : B)
    : M B :=
  match l with
  | [] => ret acc
  | x :: rest => acc' <- body acc x ;; for_fold body rest acc'
  end.

(** A [str] method called on a value: anything else has no such attribute. *)
Definition as_str (v : pyval) : M string :=
  match v with VStr s => ret s | _ => raise AttributeError end.

(** [data.items()] called on a value. *)
Definition as_dict (v : pyval) : M pydict :=
  match v with VDict d => ret d | _ => raise AttributeError end.

(** ** [BaseLoader] *)

Section Methods.

Variable self : BaseLoader.

(** *** [get_source_date] (lines 73-109) *)

(** The body of the loop over [files]; [data] is the local dictionary. *)
Definition read_source (data : Dict.t pydict) (source_file : string)
    : M (Dict.t pydict) :=
  if Str.endswith_any source_file (extensions self) then
    match file_reader self source_file with
    | Some content =>
        emit (LoadedFile source_file) ;;;
        if negb (is_nil content) then
          emit (LogDebug (identifier self ++ "_loader: " ++ source_file)) ;;;
          ret (Dict.set source_file content data)
        else
          emit (LogDebug (identifier self ++ "_loader: " ++ source_file
                          ++ " IS EMPTY")) ;;;
          ret data
    | None =>
        emit (LogDebug (identifier self ++ "_loader: " ++ source_file ++ " "
                        ++ "(Ignored, file not Found)")) ;;;
        ret data
    end
  else
    let content := string_reader self source_file in
    if negb (is_nil content) then ret (Dict.set source_file content data)
    else ret data.

Definition get_source_date (files : list string) : M (Dict.t pydict) :=
  for_fold read_source files [].

(** *** [_set_data_to_obj] (lines 169-210) *)

(** Line 181: first-level keys go through [upperfy]. *)
Definition normalize (data : pydict) : pydict := Dict.rekey upperfy data.

(** Line 194: [file_merge or data.pop("DYNACONF_MERGE", False)].  The [pop]
    runs only when [file_merge] is falsy. *)
Definition resolve_merge (file_merge : pyval) (data : pydict)
    : pyval * pydict :=
  if truthy file_merge then (file_merge, data)
  else Dict.pop "DYNACONF_MERGE" (VBool false) data.

(** How the [env] argument (a name, or the default [False]) prints. *)
Definition env_text (env : option string) : string :=
  match env with Some e => e | None => "False" end.

Definition _set_data_to_obj (data : pydict) (ident source_file : string)
    (file_merge : pyval) (key : option string) (env : option string)
    : M unit :=
  let data := normalize data in
  let key := if key_truthy key then option_map upperfy key else key in
  let is_secret := Str.contains "secret" source_file in
  let _keys := if is_secret then inl (Dict.keys data) else inr data in
  let _path := Str.basename source_file in
  emit (LogData (identifier self ++ "_loader: " ++ _path
                 ++ "[" ++ env_text env ++ "]") _keys) ;;;
  let file_merge' := fst (resolve_merge file_merge data) in
  let data' := snd (resolve_merge file_merge data) in
  if negb (key_truthy key) then
    call_update data' ident is_secret file_merge'
  else
    match key with
    | Some k =>
        match Dict.get k data' with
        | Some v => call_set k v ident is_secret file_merge'
        | None => ret tt
        end
    | None => ret tt
    end.

(** *** [_envless_load] (lines 111-116) *)

Definition _envless_load (source_data : Dict.t pydict) (silent : bool)
    (key : option string) : M unit :=
  for_each
    (fun entry =>
       _set_data_to_obj (snd entry) (identifier self) (fst entry)
                        VNone key None)
    source_data.

(** *** [_load_all_envs] (lines 118-167) *)

(** Lines 130-141. *)
Definition base_envs : M (list string) :=
  prefix <- gets (fun s => obj_get s "ENVVAR_PREFIX_FOR_DYNACONF") ;;
  prefix <- as_str (py_or prefix (VStr "")) ;;
  default <- gets (fun s => obj_get s "DEFAULT_ENV_FOR_DYNACONF") ;;
  default <- as_str default ;;
  ret [Str.lower prefix; Str.lower default; "development"; "dynaconf";
       "global"].

(** Lines 150-153. *)
Definition undefined_env_message (env source_file : string) : string :=
  (identifier self ++ "_loader: " ++ env ++ " env not")
  ++ ("defined in " ++ source_file).

(** The body of the loop over the environment list (lines 144-167). *)
Definition load_env (source_file : string) (file_data : pydict)
    (file_merge : pyval) (bases : list string) (silent : bool)
    (key : option string) (env : string) : M unit :=
  let env := Str.lower env in
  match Dict.get env file_data with
  | None =>
      if negb (existsb (String.eqb env) bases) then
        let message := undefined_env_message env source_file in
        if silent then emit (LogWarning message)
        else raise (KeyError message)
      else ret tt
  | Some block =>
      let data := py_or block (VDict []) in
      default <- gets (fun s => obj_get s "DEFAULT_ENV_FOR_DYNACONF") ;;
      default <- as_str default ;;
      let ident :=
        if negb (env =? Str.lower default)
        then (identifier self ++ "_" ++ env)%string
        else identifier self in
      data <- as_dict data ;;
      _set_data_to_obj data ident source_file file_merge key (Some env)
  end.

(** The body of the loop over the sources (lines 123-167). *)
Definition load_source_envs (silent : bool) (key : option string)
    (entry : string * pydict) : M unit :=
  let source_file := fst entry in
  let file_data := Dict.rekey Str.lower (snd entry) in
  let file_merge :=
    match Dict.get "dynaconf_merge" file_data with
    | Some v => v
    | None => VNone
    end in
  bases <- base_envs ;;
  envs <- gets (fun s => build_env_list s (env self)) ;;
  for_each (load_env source_file file_data file_merge bases silent key) envs.

Definition _load_all_envs (source_data : Dict.t pydict) (silent : bool)
    (key : option string) : M unit :=
  for_each (load_source_envs silent key) source_data.

(** *** [load] (lines 45-71) *)

(** Lines 57-64, for a truthy specifier. *)
Definition resolve_files (filename : specifier) : list string :=
  match filename with
  | FList l => l
  | FStr s =>
      let split_files := ensure_a_list s in
      if forallb (fun f => Str.endswith_any f (extensions self)) split_files
      then split_files
      else [s]
  | FNone => []
  end.

(** Lines 66-71. *)
Definition load_files (files : list string) (key : option string)
    (silent : bool) : M unit :=
  source_data <- get_source_date files ;;
  envless <- gets (fun s => obj_get s "ENVLESS_MODE_FOR_DYNACONF") ;;
  if is_True envless then _envless_load source_data silent key
  else _load_all_envs source_data silent key.

(** Line 53: [filename or self.obj.get(self.identifier.upper())]. *)
Definition effective_filename (filename : specifier) (s : Store)
    : specifier :=
  if spec_truthy filename then filename
  else obj_files s (Str.upper (identifier self)).

Definition load (filename : specifier) (key : option string)
    (silent : bool) : M unit :=
  filename <- gets (effective_filename filename) ;;
  if negb (spec_truthy filename) then ret tt
  else load_files (resolve_files filename) key silent.

End Methods.

End Loader.

(** ** Vocabulary of the statements *)

Section Vocabulary.
Context {X : Externals}.
Variable self : BaseLoader.

(** What [get_source_date] obtains for one source: the parsed file, the
    parsed text, or nothing for a file that is not there. *)
Definition content_of (source_file : string) : pydict :=
  if Str.endswith_any source_file (extensions self) then
    match file_reader self source_file with
    | Some content => content
    | None => []
    end
  else string_reader self source_file.

(** The local dictionary after one source. *)
Definition data_after (data : Dict.t pydict) (source_file : string)
    : Dict.t pydict :=
  if negb (is_nil (content_of source_file))
  then Dict.set source_file (content_of source_file) data
  else data.

Definition has_content (source_file : string) : bool :=
  negb (is_nil (content_of source_file)).

(** The elements of [l] in order, each at its first occurrence, leaving
    out what is in [seen]. *)
Fixpoint first_occurrences (seen l : list string) : list string :=
  match l with
  | [] => []
  | x :: rest =>
      if existsb (String.eqb x) seen then first_occurrences seen rest
      else x :: first_occurrences (seen ++ [x]) rest
  end.

End Vocabulary.

(** ** [warn_not_installed] (lines 36-43)

    A static method: it reads and extends the list
    [obj._not_installed_warnings], passed here as [warnings], and logs
    through the module's logger. *)

Definition not_installed_message (identifier : string) : string :=
  (identifier ++ " support is not installed in your environment. ")
  ++ ("`pip install dynaconf[" ++ identifier ++ "]`").

Definition warn_not_installed (warnings : list string) (identifier : string)
    : list event * list string :=
  (if negb (existsb (String.eqb identifier) warnings)
   then [LogWarning (not_installed_message identifier)]
   else [],
   warnings ++ [identifier]).

(** One call after the other, on the list the call before left. *)
Fixpoint warn_each (warnings identifiers : list string)
    : list event * list string :=
  match identifiers with
  | [] => ([], warnings)
  | identifier :: rest =>
      let first := warn_not_installed warnings identifier in
      let others := warn_each (snd first) rest in
      (fst first ++ fst others, snd others)
  end.

(** ** Vocabulary of the further properties *)

(** What a trace appends to [obj._loaded_files]. *)
Definition loaded_files (tr : list event) : list string :=
  flat_map (fun e => match e with LoadedFile f => [f] | _ => [] end) tr.

(** A source that is a file and could be opened. *)
Definition opened (self : BaseLoader) (source_file : string) : bool :=
  Str.endswith_any source_file (extensions self)
  && match file_reader self source_file with
     | Some _ => true
     | None => false
     end.

(** A sink call tagged with the loader's identifier, bare or followed by a
    lower-cased environment name. *)
Definition tagged_by (self : BaseLoader) (e : event) : Prop :=
  match e with
  | Update _ ident _ _ | SetKey _ _ ident _ _ =>
      ident = identifier self
      \/ exists env, ident = (identifier self ++ "_" ++ Str.lower env)%string
  | _ => True
  end.

(** A sink call flagged [b], or a data log line that shows key names only
    when [b] and the mapping otherwise. *)
Definition secrecy_is (b : bool) (e : event) : Prop :=
  match e with
  | Update _ _ secret _ | SetKey _ _ _ secret _ => secret = b
  | LogData _ (inl _) => b = true
  | LogData _ (inr _) => b = false
  | _ => True
  end.

(** The keys of a mapping spelled another way. *)
Definition recase (g : string -> string) (d : pydict) : pydict :=
  map (fun kv => (g (fst kv), snd kv)) d.

(** The value that the last entry of [d] whose key [f] sends to [K] holds,
    if there is such an entry. *)
Definition last_value (f : string -> string) (K : string) (d : pydict)
    : option pyval :=
  option_map snd (find (fun kv => f (fst kv) =? K) (rev d)).

(** A trace in which every block handed to [_set_data_to_obj] (its data
    log line) is followed at once by one bulk update, and in which the sink
    is called for nothing else: no [set], no update on its own, no block
    left unwritten. *)
Fixpoint bulk_only (tr : list event) : bool :=
  match tr with
  | [] => true
  | LogData _ _ :: Update _ _ _ _ :: rest => bulk_only rest
  | LogData _ _ :: _ => false
  | Update _ _ _ _ :: _ => false
  | SetKey _ _ _ _ _ :: _ => false
  | _ :: rest => bulk_only rest
  end.

(** ** Facts about dictionaries *)

Module DictFacts.

Section Facts.
Context {V : Type}.
Implicit Types (d : Dict.t V) (k : string) (v : V).

Lemma get_set_same k v d : Dict.get k (Dict.set k v d) = Some v.
Proof.
  induction d as [|[k' v'] d IH]; simpl.
  - now rewrite String.eqb_refl.
  - destruct (k' =? k) eqn:E; simpl; now rewrite E.
Qed.

Lemma get_set_other k k' v d :
  k' <> k -> Dict.get k' (Dict.set k v d) = Dict.get k' d.
Proof.
  intros Hne. induction d as [|[k0 v0] d IH]; simpl.
  - destruct (String.eqb_spec k k'); congruence.
  - destruct (String.eqb_spec k0 k) as [->|Hk]; simpl.
    + destruct (String.eqb_spec k k'); congruence.
    + now rewrite IH.
Qed.

Lemma mem_In k d : Dict.mem k d = true <-> In k (Dict.keys d).
Proof.
  unfold Dict.mem. induction d as [|[k0 v0] d IH]; simpl.
  - split; [discriminate | tauto].
  - destruct (String.eqb_spec k0 k) as [->|Hk].
    + split; auto.
    + rewrite IH. split; [auto | intros [?|?]; congruence].
Qed.

Lemma get_None_not_In k d : Dict.get k d = None <-> ~ In k (Dict.keys d).
Proof.
  rewrite <- mem_In. unfold Dict.mem.
  destruct (Dict.get k d); split; congruence.
Qed.

Lemma get_Some_In k v d : Dict.get k d = Some v -> In k (Dict.keys d).
Proof.
  intros H. apply mem_In. unfold Dict.mem. now rewrite H.
Qed.

Lemma keys_set k v d :
  Dict.keys (Dict.set k v d)
  = if Dict.mem k d then Dict.keys d else Dict.keys d ++ [k].
Proof.
  unfold Dict.mem. induction d as [|[k0 v0] d IH]; simpl; auto.
  destruct (String.eqb_spec k0 k) as [->|Hk]; simpl; auto.
  rewrite IH. now destruct (Dict.get k d).
Qed.

Lemma NoDup_set k v d :
  NoDup (Dict.keys d) -> NoDup (Dict.keys (Dict.set k v d)).
Proof.
  intros Hd. rewrite keys_set. destruct (Dict.mem k d) eqn:E; auto.
  apply NoDup_app; auto.
  - constructor; [intros [] | constructor].
  - intros x Hx [<-|[]]. apply mem_In in Hx. congruence.
Qed.

Lemma NoDup_fold_set (f : string -> string) (l : list (string * V)) d :
  NoDup (Dict.keys d) ->
  NoDup (Dict.keys
           (fold_left (fun acc kv => Dict.set (f (fst kv)) (snd kv) acc) l d)).
Proof.
  revert d. induction l as [|kv l IH]; simpl; intros d Hd; auto.
  apply IH. now apply NoDup_set.
Qed.

(** A dictionary built by a comprehension has one entry per key. *)
Lemma NoDup_rekey (f : string -> string) d :
  NoDup (Dict.keys (Dict.rekey f d)).
Proof. apply NoDup_fold_set. constructor. Qed.

Lemma get_remove_other k k' d :
  k' <> k -> Dict.get k' (Dict.remove k d) = Dict.get k' d.
Proof.
  intros Hne. induction d as [|[k0 v0] d IH]; simpl; auto.
  destruct (String.eqb_spec k0 k) as [->|Hk]; simpl.
  - destruct (String.eqb_spec k k'); congruence.
  - now rewrite IH.
Qed.

Lemma get_remove_same k d :
  NoDup (Dict.keys d) -> Dict.get k (Dict.remove k d) = None.
Proof.
  induction d as [|[k0 v0] d IH]; simpl; intros Hd; auto.
  inversion Hd as [|? ? Hnotin Hd']; subst.
  destruct (String.eqb_spec k0 k) as [->|Hk]; simpl.
  - now apply get_None_not_In.
  - destruct (String.eqb_spec k0 k); [congruence | auto].
Qed.

Lemma get_pop_other k k' default d :
  k' <> k -> Dict.get k' (snd (Dict.pop k default d)) = Dict.get k' d.
Proof.
  intros Hne. unfold Dict.pop. destruct (Dict.get k d); simpl; auto.
  now apply get_remove_other.
Qed.

Lemma get_pop_same k default d :
  NoDup (Dict.keys d) -> Dict.get k (snd (Dict.pop k default d)) = None.
Proof.
  intros Hd. unfold Dict.pop. destruct (Dict.get k d) eqn:E; simpl; auto.
  now apply get_remove_same.
Qed.

End Facts.

End DictFacts.

Arguments mkRun {X A} _ _ _.
Arguments trace {X A} _.
Arguments final {X A} _.
Arguments value {X A} _.

(** A program that raises nothing but exceptions of the kind [E]. *)
Definition raises_only {X : Externals} (E : exn -> Prop) {A : Type}
    (m : M A) : Prop :=
  forall s, match value (m s) with Ok _ => True | Raise e => E e end.

(** ** Properties of the loader *)

Section Properties.
Context {X : Externals}.

Local Notation "x <- m ;; k" := (bind m (fun x => k))
  (at level 61, m at next level, right associativity).
Local Notation "m ;;; k" := (bind m (fun _ => k))
  (at level 61, right associativity).

(** *** The monad *)

Lemma run_eta {A : Type} (r : run A) :
  mkRun (trace r) (final r) (value r) = r.
Proof. now destruct r. Qed.

Lemma bind_ret {A B : Type} (a : A) (k : A -> M B) s :
  bind (ret a) k s = k a s.
Proof. unfold bind, ret. simpl. apply run_eta. Qed.

Lemma bind_gets {A B : Type} (f : Store -> A) (k : A -> M B) s :
  bind (gets f) k s = k (f s) s.
Proof. unfold bind, gets. simpl. apply run_eta. Qed.

Lemma bind_emit {B : Type} (e : event) (k : unit -> M B) s :
  bind (emit e) k s
  = mkRun (e :: trace (k tt s)) (final (k tt s)) (value (k tt s)).
Proof. reflexivity. Qed.

Lemma bind_ext {A B : Type} (m m' : M A) (k k' : A -> M B) s :
  m s = m' s -> (forall a s', k a s' = k' a s') -> bind m k s = bind m' k' s.
Proof.
  intros Hm Hk. unfold bind. rewrite Hm.
  destruct (value (m' s)); auto. now rewrite Hk.
Qed.

Lemma for_each_ext {A : Type} (f g : A -> M unit) (l : list A) :
  (forall x s, In x l -> f x s = g x s) ->
  forall s, for_each f l s = for_each g l s.
Proof.
  induction l as [|x l IH]; intros H s; simpl; auto.
  apply bind_ext.
  - apply H. now left.
  - intros _ s'. apply IH. intros y s0 Hy. apply H. now right.
Qed.

Lemma bind_run {A B : Type} (m : M A) (k : A -> M B) s a :
  value (m s) = Ok a ->
  bind m k s
  = mkRun (trace (m s) ++ trace (k a (final (m s))))
          (final (k a (final (m s)))) (value (k a (final (m s)))).
Proof. intros Hv. unfold bind. now rewrite Hv. Qed.

Lemma for_each_one {A : Type} (f : A -> M unit) (x : A) s :
  for_each f [x] s = f x s.
Proof.
  simpl. unfold bind.
  destruct (f x s) as [t fin [[]|e]]; simpl; now rewrite ?app_nil_r.
Qed.

Lemma bind_value_ok {A B : Type} (m : M A) (k : A -> M B) s a :
  value (m s) = Ok a -> final (m s) = s ->
  bind m k s
  = mkRun (trace (m s) ++ trace (k a s)) (final (k a s)) (value (k a s)).
Proof. intros Hv Hf. unfold bind. now rewrite Hv, Hf. Qed.

Lemma trace_bind_ok {A B : Type} (m : M A) (k : A -> M B) s a :
  value (m s) = Ok a ->
  trace (bind m k s) = trace (m s) ++ trace (k a (final (m s)))
  /\ value (bind m k s) = value (k a (final (m s))).
Proof. intros Hv. unfold bind. now rewrite Hv. Qed.

Lemma bind_assoc {A B C : Type} (m : M A) (k : A -> M B) (h : B -> M C) s :
  bind (bind m k) h s = bind m (fun a => bind (k a) h) s.
Proof.
  unfold bind. destruct (value (m s)) as [a|e]; simpl; auto.
  destruct (value (k a (final (m s)))) as [b|e]; simpl; auto.
  now rewrite app_assoc.
Qed.

Lemma for_each_app {A : Type} (f : A -> M unit) (l1 l2 : list A) : forall s,
  for_each f (l1 ++ l2) s = (for_each f l1 ;;; for_each f l2) s.
Proof.
  induction l1 as [|x l1 IH]; intros s; simpl.
  - now rewrite bind_ret.
  - rewrite bind_assoc. apply bind_ext; auto.
Qed.

Variable self : BaseLoader.

(** *** Reading the sources *)

Lemma read_source_spec data f s :
  value (read_source self data f s) = Ok (data_after self data f)
  /\ final (read_source self data f s) = s.
Proof.
  unfold read_source, data_after, content_of.
  destruct (Str.endswith_any f (extensions self)).
  - destruct (file_reader self f) as [c|]; [|now split].
    rewrite bind_emit. simpl.
    destruct (is_nil c); simpl; now split.
  - destruct (is_nil (string_reader self f)); simpl; now split.
Qed.

Lemma get_source_date_spec files : forall data s,
  value (for_fold (read_source self) files data s)
  = Ok (fold_left (data_after self) files data)
  /\ final (for_fold (read_source self) files data s) = s.
Proof.
  induction files as [|f files IH]; intros data s; simpl; [now split|].
  destruct (read_source_spec data f s) as [Hv Hf].
  unfold bind. rewrite Hv. simpl. rewrite Hf. apply IH.
Qed.

Lemma existsb_eqb_In (x : string) (l : list string) :
  existsb (String.eqb x) l = true <-> In x l.
Proof.
  rewrite existsb_exists. split.
  - intros [y [Hy E]]. apply String.eqb_eq in E. now subst.
  - intros H. exists x. split; auto. apply String.eqb_refl.
Qed.

Lemma existsb_eqb_mem {V : Type} (x : string) (d : Dict.t V) :
  existsb (String.eqb x) (Dict.keys d) = Dict.mem x d.
Proof.
  destruct (Dict.mem x d) eqn:E.
  - apply existsb_eqb_In. now apply DictFacts.mem_In.
  - destruct (existsb (String.eqb x) (Dict.keys d)) eqn:E'; auto.
    apply existsb_eqb_In, DictFacts.mem_In in E'. congruence.
Qed.

Lemma keys_fold_data_after files : forall data,
  Dict.keys (fold_left (data_after self) files data)
  = Dict.keys data
    ++ first_occurrences (Dict.keys data) (filter (has_content self) files).
Proof.
  induction files as [|f files IH]; intros data; simpl.
  - now rewrite app_nil_r.
  - rewrite IH. unfold data_after. fold (has_content self f).
    destruct (has_content self f); simpl; auto.
    rewrite DictFacts.keys_set, existsb_eqb_mem.
    destruct (Dict.mem f data); auto.
    now rewrite <- app_assoc.
Qed.

Lemma get_fold_data_after files : forall data f,
  Dict.get f (fold_left (data_after self) files data)
  = if existsb (String.eqb f) (filter (has_content self) files)
    then Some (content_of self f)
    else Dict.get f data.
Proof.
  induction files as [|g files IH]; intros data f; simpl; auto.
  rewrite IH. unfold data_after. fold (has_content self g).
  destruct (has_content self g); simpl; auto.
  destruct (existsb (String.eqb f) (filter (has_content self) files)).
  - now rewrite orb_true_r.
  - rewrite orb_false_r. destruct (String.eqb_spec f g) as [->|Hne].
    + apply DictFacts.get_set_same.
    + now apply DictFacts.get_set_other.
Qed.

Lemma trace_for_fold_cons f files data s :
  trace (for_fold (read_source self) (f :: files) data s)
  = trace (read_source self data f s)
    ++ trace (for_fold (read_source self) files (data_after self data f) s).
Proof.
  simpl. unfold bind.
  destruct (read_source_spec data f s) as [Hv Hf].
  rewrite Hv. simpl. now rewrite Hf.
Qed.

Lemma missing_file_logged files : forall f data s,
  In f files ->
  Str.endswith_any f (extensions self) = true ->
  file_reader self f = None ->
  In (LogDebug (identifier self ++ "_loader: " ++ f
                ++ " (Ignored, file not Found)"))
     (trace (for_fold (read_source self) files data s)).
Proof.
  induction files as [|g files IH]; intros f data s Hin Hext Hnone.
  - destruct Hin.
  - rewrite trace_for_fold_cons. apply in_or_app.
    destruct Hin as [->|Hin].
    + left. unfold read_source. rewrite Hext, Hnone. now left.
    + right. now apply IH.
Qed.

Lemma first_occurrences_fresh (l : list string) : forall seen,
  NoDup l -> (forall x, In x l -> ~ In x seen) ->
  first_occurrences seen l = l.
Proof.
  induction l as [|x l IH]; intros seen Hl Hfresh; simpl; auto.
  inversion Hl as [|? ? Hx Hl']; subst.
  destruct (existsb (String.eqb x) seen) eqn:E.
  - apply existsb_eqb_In in E. exfalso. apply (Hfresh x); simpl; auto.
  - f_equal. apply IH; auto.
    intros y Hy Hin. apply in_app_or in Hin. destruct Hin as [Hin|[<-|[]]].
    + apply (Hfresh y); simpl; auto.
    + contradiction.
Qed.

(** C6: the Source Reader returns a mapping that holds exactly the sources
    whose parsed content is non-empty, in the order of the input list (a
    source listed twice keeps its first position, and a list without
    repetitions is just filtered); it leaves the settings untouched; a file
    that does not exist is logged and left out, and the sources around it
    are read all the same. *)
Theorem C6_source_reader (files : list string) (s : Store) :
  exists data,
    value (get_source_date self files s) = Ok data
    /\ final (get_source_date self files s) = s
    /\ Dict.keys data = first_occurrences [] (filter (has_content self) files)
    /\ (NoDup files -> Dict.keys data = filter (has_content self) files)
    /\ (forall f c,
          Dict.get f data = Some c
          <-> In f files /\ content_of self f = c /\ c <> [])
    /\ (forall f,
          In f files ->
          Str.endswith_any f (extensions self) = true ->
          file_reader self f = None ->
          In (LogDebug (identifier self ++ "_loader: " ++ f
                        ++ " (Ignored, file not Found)"))
             (trace (get_source_date self files s))
          /\ Dict.get f data = None).
Proof.
  exists (fold_left (data_after self) files []).
  destruct (get_source_date_spec files [] s) as [Hv Hf].
  unfold get_source_date.
  split; [exact Hv|]. split; [exact Hf|].
  split; [apply (keys_fold_data_after files [])|].
  split.
  { intros Hnd. rewrite (keys_fold_data_after files []). simpl.
    apply first_occurrences_fresh; [now apply NoDup_filter | auto]. }
  split.
  - intros f c. rewrite get_fold_data_after. simpl.
    destruct (existsb (String.eqb f) (filter (has_content self) files)) eqn:E.
    + apply existsb_eqb_In, filter_In in E. destruct E as [Hin Hc].
      unfold has_content in Hc.
      split.
      * intros [= <-]. repeat split; auto.
        intros Hnil. rewrite Hnil in Hc. discriminate.
      * intros [_ [<- _]]. reflexivity.
    + split; [discriminate|]. intros [Hin [<- Hne]]. exfalso.
      assert (Hf' : existsb (String.eqb f) (filter (has_content self) files)
                    = true).
      { apply existsb_eqb_In, filter_In. split; auto. unfold has_content.
        destruct (content_of self f); [congruence | reflexivity]. }
      congruence.
  - intros f Hin Hext Hnone. split.
    + now apply missing_file_logged.
    + rewrite get_fold_data_after. simpl.
      destruct (existsb (String.eqb f) (filter (has_content self) files))
        eqn:E; auto.
      apply existsb_eqb_In, filter_In in E. destruct E as [_ Hc].
      unfold has_content, content_of in Hc. now rewrite Hext, Hnone in Hc.
Qed.

(** *** Writing to the sink *)

Lemma sink_calls_app (t1 t2 : list event) :
  sink_calls (t1 ++ t2) = sink_calls t1 ++ sink_calls t2.
Proof. apply filter_app. Qed.

(** Without a key filter: one bulk update. *)
Lemma set_data_bulk data ident src fm key env s :
  key_truthy key = false ->
  let r := _set_data_to_obj self data ident src fm key env s in
  let data' := snd (resolve_merge fm (normalize data)) in
  let merge := fst (resolve_merge fm (normalize data)) in
  let secret := Str.contains "secret" src in
  value r = Ok tt
  /\ sink_calls (trace r) = [Update data' ident secret merge]
  /\ final r = obj_update data' ident secret merge s.
Proof.
  intros Hkey. unfold _set_data_to_obj. rewrite Hkey, bind_emit. simpl.
  rewrite Hkey. simpl. auto.
Qed.

(** With a key filter: one [set] when the key is there, nothing otherwise. *)
Lemma set_data_keyed data ident src fm k env s :
  Str.nonempty k = true ->
  Str.nonempty (upperfy k) = true ->
  let r := _set_data_to_obj self data ident src fm (Some k) env s in
  let data' := snd (resolve_merge fm (normalize data)) in
  let merge := fst (resolve_merge fm (normalize data)) in
  let secret := Str.contains "secret" src in
  value r = Ok tt
  /\ match Dict.get (upperfy k) data' with
     | Some v =>
         sink_calls (trace r) = [SetKey (upperfy k) v ident secret merge]
         /\ final r = obj_set (upperfy k) v ident secret merge s
     | None => sink_calls (trace r) = [] /\ final r = s
     end.
Proof.
  intros Hk HK. unfold _set_data_to_obj. simpl key_truthy.
  rewrite Hk, bind_emit. simpl. rewrite HK. simpl.
  destruct (Dict.get (upperfy k) (snd (resolve_merge fm (normalize data))));
    simpl; auto.
Qed.

(** Whatever the key filter, every sink call carries the resolved flag. *)
Lemma set_data_merge data ident src fm key env s :
  Forall (fun call => merge_of call
                      = Some (fst (resolve_merge fm (normalize data))))
         (sink_calls
            (trace (_set_data_to_obj self data ident src fm key env s))).
Proof.
  unfold _set_data_to_obj. rewrite bind_emit. simpl.
  destruct (key_truthy key) eqn:Hkey.
  - destruct key as [k|]; [|discriminate]. simpl.
    destruct (Str.nonempty (upperfy k)); simpl.
    + destruct (Dict.get (upperfy k) (snd (resolve_merge fm (normalize data))));
        simpl; repeat constructor.
    + repeat constructor.
  - rewrite Hkey. simpl. repeat constructor.
Qed.

(** Line 194, read off: a truthy top-level flag wins and nothing is popped;
    otherwise the block's own flag is popped, [False] when it has none. *)
Lemma resolve_merge_flag fm data :
  fst (resolve_merge fm data)
  = if truthy fm then fm
    else match Dict.get "DYNACONF_MERGE" data with
         | Some flag => flag
         | None => VBool false
         end.
Proof.
  unfold resolve_merge, Dict.pop. destruct (truthy fm); auto.
  now destruct (Dict.get "DYNACONF_MERGE" data).
Qed.

Lemma reserved_key_removed_without_top_level_flag fm data :
  truthy fm = false ->
  Dict.get "DYNACONF_MERGE" (snd (resolve_merge fm (normalize data))) = None.
Proof.
  intros Hfm. unfold resolve_merge. rewrite Hfm.
  apply DictFacts.get_pop_same, DictFacts.NoDup_rekey.
Qed.

Lemma reserved_key_kept_under_top_level_flag fm data :
  truthy fm = true ->
  snd (resolve_merge fm (normalize data)) = normalize data.
Proof. intros Hfm. unfold resolve_merge. now rewrite Hfm. Qed.

(** *** One environment of one source *)

Lemma load_env_present src file_data block fm bases silent key env default s :
  Dict.get (Str.lower env) file_data = Some (VDict block) ->
  obj_get s "DEFAULT_ENV_FOR_DYNACONF" = VStr default ->
  load_env self src file_data fm bases silent key env s
  = _set_data_to_obj self block
      (if negb (Str.lower env =? Str.lower default)
       then identifier self ++ "_" ++ Str.lower env
       else identifier self)%string
      src fm key (Some (Str.lower env)) s.
Proof.
  intros Hblock Hdefault. unfold load_env. rewrite Hblock.
  rewrite bind_gets, Hdefault. simpl as_str. rewrite bind_ret.
  assert (Hor : py_or (VDict block) (VDict []) = VDict block)
    by now destruct block.
  rewrite Hor. simpl as_dict. now rewrite bind_ret.
Qed.

Lemma load_env_absent src file_data fm bases silent key env s :
  Dict.get (Str.lower env) file_data = None ->
  load_env self src file_data fm bases silent key env s
  = (if negb (existsb (String.eqb (Str.lower env)) bases)
     then if silent
          then emit (LogWarning (undefined_env_message self (Str.lower env) src))
          else raise (KeyError (undefined_env_message self (Str.lower env) src))
     else ret tt) s.
Proof. intros H. unfold load_env. now rewrite H. Qed.

(** C1 (amended): for an environment block that is processed, every sink
    call carries the source's top-level merge flag when that flag is
    truthy; only when the top-level flag is falsy or absent does the call
    carry the block's own flag, and [False] when the block has none. *)
Theorem C1_merge_flag_resolution
    (source_file : string) (file_data block : pydict) (bases : list string)
    (silent : bool) (key : option string) (env default : string)
    (s : Store) :
  Dict.get (Str.lower env) file_data = Some (VDict block) ->
  obj_get s "DEFAULT_ENV_FOR_DYNACONF" = VStr default ->
  let top :=
    match Dict.get "dynaconf_merge" file_data with
    | Some v => v
    | None => VNone
    end in
  let merge :=
    if truthy top then top
    else match Dict.get "DYNACONF_MERGE" (normalize block) with
         | Some flag => flag
         | None => VBool false
         end in
  let r := load_env self source_file file_data top bases silent key env s in
  Forall (fun call => merge_of call = Some merge) (sink_calls (trace r))
  /\ (key_truthy key = false ->
      exists data ident,
        sink_calls (trace r)
        = [Update data ident (Str.contains "secret" source_file) merge]).
Proof.
  intros Hblock Hdefault top merge r. subst r merge.
  rewrite (load_env_present _ _ _ _ _ _ _ _ _ _ Hblock Hdefault).
  rewrite <- resolve_merge_flag. split.
  - apply set_data_merge.
  - intros Hkey. eexists. eexists.
    apply (set_data_bulk block _ source_file top key _ s Hkey).
Qed.

(** *** Environments that a source does not define *)

Lemma append_assoc (a b c : string) : ((a ++ b) ++ c = a ++ (b ++ c))%string.
Proof. induction a as [|x a IH]; simpl; [reflexivity | now rewrite IH]. Qed.

(** The message of lines 150-153, spelled out. *)
Lemma undefined_env_message_text env src :
  undefined_env_message self env src
  = (identifier self ++ "_loader: " ++ env ++ " env notdefined in "
     ++ src)%string.
Proof.
  unfold undefined_env_message.
  rewrite !append_assoc. reflexivity.
Qed.

Lemma base_envs_ok prefix default s :
  py_or (obj_get s "ENVVAR_PREFIX_FOR_DYNACONF") (VStr "") = VStr prefix ->
  obj_get s "DEFAULT_ENV_FOR_DYNACONF" = VStr default ->
  base_envs s
  = mkRun [] s (Ok [Str.lower prefix; Str.lower default; "development";
                    "dynaconf"; "global"]).
Proof.
  intros Hp Hd. unfold base_envs.
  rewrite bind_gets, Hp. simpl as_str. rewrite bind_ret.
  rewrite bind_gets, Hd. simpl as_str. now rewrite bind_ret.
Qed.

(** The loop over the environment list of one source, with the base
    environments and the list both read from the settings first. *)
Lemma load_source_envs_unfold silent key src data prefix default s :
  py_or (obj_get s "ENVVAR_PREFIX_FOR_DYNACONF") (VStr "") = VStr prefix ->
  obj_get s "DEFAULT_ENV_FOR_DYNACONF" = VStr default ->
  load_source_envs self silent key (src, data) s
  = for_each
      (load_env self src (Dict.rekey Str.lower data)
         match Dict.get "dynaconf_merge" (Dict.rekey Str.lower data) with
         | Some v => v
         | None => VNone
         end
         [Str.lower prefix; Str.lower default; "development"; "dynaconf";
          "global"]
         silent key)
      (build_env_list s (env self)) s.
Proof.
  intros Hp Hd. unfold load_source_envs. simpl fst. simpl snd.
  unfold bind at 1. rewrite (base_envs_ok _ _ _ Hp Hd). simpl.
  apply run_eta.
Qed.

(** C4: an environment of the list that the source does not define (under
    its lower-cased name), at any place of the list that the loop reaches.
    The base environments are the ones lines 130-141 read from the settings:
    the lower-cased prefix and default environment, "development",
    "dynaconf" and "global".  When the name is one of them, the run over
    the source is the run over the environments before it followed by the
    run over those after it: no warning, no sink call, the settings as they
    were.  Otherwise, in silent mode exactly one warning is logged between
    the two and the loop goes on from the same settings; in strict mode the
    run ends there with a [KeyError] whose message names the loader, the
    environment and the source, and the environments after it are not
    loaded. *)
Theorem C4_undefined_environment
    (source_file : string) (data : pydict) (prefix default : string)
    (silent : bool) (key : option string)
    (before : list string) (name : string) (after : list string)
    (s : Store) :
  py_or (obj_get s "ENVVAR_PREFIX_FOR_DYNACONF") (VStr "") = VStr prefix ->
  obj_get s "DEFAULT_ENV_FOR_DYNACONF" = VStr default ->
  build_env_list s (env self) = before ++ name :: after ->
  Dict.get (Str.lower name) (Dict.rekey Str.lower data) = None ->
  let file_data := Dict.rekey Str.lower data in
  let top := match Dict.get "dynaconf_merge" file_data with
             | Some v => v
             | None => VNone
             end in
  let bases := [Str.lower prefix; Str.lower default; "development";
                "dynaconf"; "global"] in
  let body := load_env self source_file file_data top bases silent key in
  let earlier := for_each body before s in
  let later := for_each body after (final earlier) in
  let message :=
    (identifier self ++ "_loader: " ++ Str.lower name
     ++ " env notdefined in " ++ source_file)%string in
  let r := load_source_envs self silent key (source_file, data) s in
  value earlier = Ok tt ->
  (In (Str.lower name) bases ->
     r = mkRun (trace earlier ++ trace later) (final later) (value later))
  /\ (~ In (Str.lower name) bases -> silent = true ->
        r = mkRun (trace earlier ++ LogWarning message :: trace later)
              (final later) (value later))
  /\ (~ In (Str.lower name) bases -> silent = false ->
        r = mkRun (trace earlier) (final earlier)
              (Raise (KeyError message))).
Proof.
  intros Hp Hd Henvs Habsent file_data top bases body earlier later message r
    Hearlier.
  assert (Hr : r = (for_each body before ;;; for_each body (name :: after)) s).
  { subst r. rewrite (load_source_envs_unfold _ _ _ _ _ _ _ Hp Hd), Henvs.
    apply for_each_app. }
  rewrite Hr, (bind_run _ _ _ _ Hearlier). fold earlier.
  assert (Hbody :
    body name (final earlier)
    = (if negb (existsb (String.eqb (Str.lower name)) bases)
       then if silent then emit (LogWarning message)
            else raise (KeyError message)
       else ret tt) (final earlier)).
  { subst body. rewrite (load_env_absent _ _ _ _ _ _ _ _ Habsent).
    now rewrite undefined_env_message_text. }
  assert (Hnot : ~ In (Str.lower name) bases ->
                 existsb (String.eqb (Str.lower name)) bases = false).
  { intros Hn. destruct (existsb (String.eqb (Str.lower name)) bases) eqn:E;
      auto. apply existsb_eqb_In in E. contradiction. }
  change (for_each body (name :: after))
    with (body name ;;; for_each body after).
  split; [|split].
  - intros Hin. apply existsb_eqb_In in Hin.
    assert (E : (body name ;;; for_each body after) (final earlier) = later).
    { unfold bind. rewrite Hbody, Hin. simpl. apply run_eta. }
    now rewrite E.
  - intros Hn ->.
    assert (E : (body name ;;; for_each body after) (final earlier)
                = mkRun (LogWarning message :: trace later) (final later)
                    (value later)).
    { unfold bind. rewrite Hbody, (Hnot Hn). reflexivity. }
    now rewrite E.
  - intros Hn ->.
    assert (E : (body name ;;; for_each body after) (final earlier)
                = mkRun [] (final earlier) (Raise (KeyError message))).
    { unfold bind. rewrite Hbody, (Hnot Hn). reflexivity. }
    rewrite E. simpl. now rewrite app_nil_r.
Qed.

(** *** Resolving the specifier *)

Lemma load_truthy filename key silent s :
  spec_truthy (effective_filename self filename s) = true ->
  load self filename key silent s
  = load_files self (resolve_files self (effective_filename self filename s))
      key silent s.
Proof. intros H. unfold load. rewrite bind_gets, H. reflexivity. Qed.

(** C5: a specifier that is one string is split into candidates; when all
    of them end with a recognised extension they are the sources, and
    otherwise the whole specifier is the one source; with no specifier and
    no default in the settings, [load] returns at once, without a sink
    call, a log line or a read. *)
Theorem C5_source_resolver
    (filename : specifier) (key : option string) (silent : bool)
    (s : Store) :
  (forall text,
     effective_filename self filename s = FStr text -> text <> "" ->
     let candidates := ensure_a_list text in
     let recognised c := Str.endswith_any c (extensions self) = true in
     (Forall recognised candidates ->
        load self filename key silent s
        = load_files self candidates key silent s)
     /\ (~ Forall recognised candidates ->
          load self filename key silent s
          = load_files self [text] key silent s))
  /\ (spec_truthy filename = false ->
      spec_truthy (obj_files s (Str.upper (identifier self))) = false ->
      load self filename key silent s = mkRun [] s (Ok tt)).
Proof.
  split.
  - intros text Heff Htext candidates recognised.
    assert (Ht : spec_truthy (effective_filename self filename s) = true).
    { rewrite Heff. simpl. unfold Str.nonempty.
      destruct (String.eqb_spec text ""); [contradiction | reflexivity]. }
    rewrite (load_truthy _ _ _ _ Ht), Heff. unfold resolve_files.
    fold candidates. split.
    + intros Hall.
      assert (Hb : forallb (fun f => Str.endswith_any f (extensions self))
                           candidates = true).
      { apply forallb_forall. now apply Forall_forall. }
      now rewrite Hb.
    + intros Hnot.
      destruct (forallb (fun f => Str.endswith_any f (extensions self))
                        candidates) eqn:Hb; auto.
      exfalso. apply Hnot, Forall_forall.
      now apply forallb_forall.
  - intros Hf Hd. unfold load. rewrite bind_gets.
    unfold effective_filename. rewrite Hf, Hd. reflexivity.
Qed.

(** *** The single-key filter *)

Lemma nonempty_true (k : string) : k <> "" -> Str.nonempty k = true.
Proof.
  intros H. unfold Str.nonempty.
  destruct (String.eqb_spec k ""); [contradiction | reflexivity].
Qed.

(** A filter for the reserved key finds nothing once line 194 has popped
    it, which is whenever the top-level flag is falsy. *)
Lemma reserved_key_filter_finds_nothing data ident src fm k env s :
  k <> "" -> upperfy k = "DYNACONF_MERGE" -> truthy fm = false ->
  sink_calls (trace (_set_data_to_obj self data ident src fm (Some k) env s))
  = [].
Proof.
  intros Hk HK Hfm.
  assert (HK' : Str.nonempty (upperfy k) = true) by now rewrite HK.
  destruct (set_data_keyed data ident src fm k env s (nonempty_true _ Hk) HK')
    as [_ Hkeyed].
  rewrite HK in Hkeyed.
  rewrite (reserved_key_removed_without_top_level_flag fm data Hfm) in Hkeyed.
  apply Hkeyed.
Qed.

(** C7 (amended): a requested key goes through [upperfy] like the keys of
    the data; for a key other than the reserved merge key, when it is among
    the upper-cased keys of the data there is exactly one [set], with the
    identifier, secrecy flag and merge flag that the bulk update carries,
    and when it is not, nothing reaches the sink and nothing is raised. *)
Theorem C7_single_key_filter
    (data : pydict) (ident source_file : string) (file_merge : pyval)
    (k : string) (env : option string) (s : Store) :
  k <> "" -> upperfy k <> "" -> upperfy k <> "DYNACONF_MERGE" ->
  let merge := fst (resolve_merge file_merge (normalize data)) in
  let secret := Str.contains "secret" source_file in
  let bulk :=
    _set_data_to_obj self data ident source_file file_merge None env s in
  let keyed :=
    _set_data_to_obj self data ident source_file file_merge (Some k) env s in
  (exists mapping,
     sink_calls (trace bulk) = [Update mapping ident secret merge])
  /\ value keyed = Ok tt
  /\ (forall v,
        Dict.get (upperfy k) (normalize data) = Some v ->
        sink_calls (trace keyed) = [SetKey (upperfy k) v ident secret merge]
        /\ final keyed = obj_set (upperfy k) v ident secret merge s)
  /\ (Dict.get (upperfy k) (normalize data) = None ->
        sink_calls (trace keyed) = [] /\ final keyed = s).
Proof.
  intros Hk HK Hres merge secret bulk keyed.
  destruct (set_data_bulk data ident source_file file_merge None env s
              eq_refl) as [_ [Hbulk _]].
  destruct (set_data_keyed data ident source_file file_merge k env s
              (nonempty_true _ Hk) (nonempty_true _ HK)) as [Hv Hkeyed].
  fold merge secret keyed in Hv, Hkeyed.
  assert (Hsame :
    Dict.get (upperfy k) (snd (resolve_merge file_merge (normalize data)))
    = Dict.get (upperfy k) (normalize data)).
  { unfold resolve_merge. destruct (truthy file_merge); auto.
    now apply DictFacts.get_pop_other. }
  rewrite Hsame in Hkeyed.
  split; [eexists; exact Hbulk|]. split; [exact Hv|]. split.
  - intros v Hget. now rewrite Hget in Hkeyed.
  - intros Hget. now rewrite Hget in Hkeyed.
Qed.

(** *** Choosing the mode *)

Lemma load_files_unfold files key silent s :
  load_files self files key silent s
  = (source_data <- get_source_date self files ;;
     if is_True (obj_get s "ENVLESS_MODE_FOR_DYNACONF")
     then _envless_load self source_data silent key
     else _load_all_envs self source_data silent key) s.
Proof.
  unfold load_files, get_source_date.
  destruct (get_source_date_spec files [] s) as [Hv Hf].
  rewrite !(bind_value_ok _ _ _ _ Hv Hf).
  now rewrite bind_gets.
Qed.

Lemma is_True_false (v : pyval) : v <> VBool true -> is_True v = false.
Proof. destruct v as [| [|] | | | |]; auto. congruence. Qed.

(** Envless mode is what the value [True] selects. *)
Lemma load_files_envless files key silent s :
  obj_get s "ENVLESS_MODE_FOR_DYNACONF" = VBool true ->
  load_files self files key silent s
  = (source_data <- get_source_date self files ;;
     _envless_load self source_data silent key) s.
Proof. intros H. rewrite load_files_unfold, H. reflexivity. Qed.

(** C9: unless the settings hold exactly [True] for envless mode, [load]
    reads the sources and partitions every one of them by environment. *)
Theorem C9_envless_only_True
    (filename : specifier) (key : option string) (silent : bool)
    (s : Store) :
  obj_get s "ENVLESS_MODE_FOR_DYNACONF" <> VBool true ->
  load self filename key silent s
  = (filename' <- gets (effective_filename self filename) ;;
     if negb (spec_truthy filename') then ret tt
     else
       source_data <- get_source_date self (resolve_files self filename') ;;
       _load_all_envs self source_data silent key) s.
Proof.
  intros Hv. unfold load. rewrite !bind_gets.
  destruct (spec_truthy (effective_filename self filename s)); simpl; auto.
  rewrite load_files_unfold, (is_True_false _ Hv). reflexivity.
Qed.

(** Envless mode without a key filter: one bulk update per source, in the
    order of the source data, under the loader's own identifier. *)
Lemma envless_bulk_updates source_data silent key :
  key_truthy key = false ->
  forall s,
    value (_envless_load self source_data silent key s) = Ok tt
    /\ sink_calls (trace (_envless_load self source_data silent key s))
       = map (fun entry =>
                Update (snd (resolve_merge VNone (normalize (snd entry))))
                       (identifier self)
                       (Str.contains "secret" (fst entry))
                       (fst (resolve_merge VNone (normalize (snd entry)))))
             source_data.
Proof.
  intros Hkey. unfold _envless_load.
  induction source_data as [|[src data] rest IH]; intros s; simpl.
  - now split.
  - destruct (set_data_bulk data (identifier self) src VNone key None s Hkey)
      as [Hv [Hcalls _]].
    destruct (trace_bind_ok
                (_set_data_to_obj self data (identifier self) src VNone key None)
                (fun _ => for_each
                   (fun entry => _set_data_to_obj self (snd entry)
                      (identifier self) (fst entry) VNone key None) rest)
                s tt Hv) as [Ht Hval].
    rewrite Ht, Hval, sink_calls_app, Hcalls.
    destruct (IH (final (_set_data_to_obj self data (identifier self) src
                           VNone key None s))) as [IHv IHc].
    rewrite IHv, IHc. now split.
Qed.

(** *** What [load] asks of the readers *)

Lemma get_source_date_readers (L1 L2 : BaseLoader) files :
  identifier L1 = identifier L2 ->
  extensions L1 = extensions L2 ->
  (forall f, In f files ->
     if Str.endswith_any f (extensions L1)
     then file_reader L1 f = file_reader L2 f
     else string_reader L1 f = string_reader L2 f) ->
  forall data s,
    for_fold (read_source L1) files data s
    = for_fold (read_source L2) files data s.
Proof.
  intros Hid Hext. induction files as [|f files IH]; intros Hread data s.
  - reflexivity.
  - simpl. apply bind_ext.
    + pose proof (Hread f (or_introl eq_refl)) as Hf.
      unfold read_source. rewrite <- Hid, <- Hext.
      destruct (Str.endswith_any f (extensions L1)); now rewrite Hf.
    + intros data' s'. apply IH. intros g Hg. apply Hread. now right.
Qed.

(** What [load] does after the sources are read depends on the loader
    only through its identifier and its environment. *)
Lemma dispatch_readers (L1 L2 : BaseLoader) source_data silent key s :
  env L1 = env L2 ->
  identifier L1 = identifier L2 ->
  _envless_load L1 source_data silent key s
  = _envless_load L2 source_data silent key s
  /\ _load_all_envs L1 source_data silent key s
     = _load_all_envs L2 source_data silent key s.
Proof.
  destruct L1 as [e1 i1 x1 f1 r1], L2 as [e2 i2 x2 f2 r2]. simpl.
  intros -> ->. split; reflexivity.
Qed.

(** X16: what [load] does depends on the loader through its environment,
    its identifier, its extensions and what its readers return for the
    sources that the specifier resolves to, and through nothing else: two
    loaders that agree on these make the same run, event for event, with
    the same outcome and the same settings at the end.  A reader is asked
    about no other source, and only the reader that the extension of the
    source selects is asked. *)
Theorem X16_readers_consulted_at_resolved_sources
    (L1 L2 : BaseLoader) (filename : specifier) (key : option string)
    (silent : bool) (s : Store) :
  env L1 = env L2 ->
  identifier L1 = identifier L2 ->
  extensions L1 = extensions L2 ->
  (forall f,
     In f (resolve_files L1 (effective_filename L1 filename s)) ->
     if Str.endswith_any f (extensions L1)
     then file_reader L1 f = file_reader L2 f
     else string_reader L1 f = string_reader L2 f) ->
  load L1 filename key silent s = load L2 filename key silent s.
Proof.
  intros He Hi Hx Hread.
  unfold load. rewrite !bind_gets.
  assert (Hf : effective_filename L1 filename s
               = effective_filename L2 filename s)
    by (unfold effective_filename; now rewrite Hi).
  assert (Hr : forall x, resolve_files L2 x = resolve_files L1 x)
    by (intros x; unfold resolve_files; now rewrite Hx).
  rewrite <- Hf, Hr.
  destruct (spec_truthy (effective_filename L1 filename s)); simpl; auto.
  unfold load_files. apply bind_ext.
  - unfold get_source_date. now apply get_source_date_readers.
  - intros source_data s'. apply bind_ext; auto.
    intros envless s''.
    destruct (dispatch_readers L1 L2 source_data silent key s'' He Hi)
      as [H1 H2].
    now destruct (is_True envless).
Qed.

(** *** The scenario of the specification *)

Lemma load_all_envs_one silent key entry s :
  _load_all_envs self [entry] silent key s
  = load_source_envs self silent key entry s.
Proof.
  unfold _load_all_envs. simpl. unfold bind.
  destruct (load_source_envs self silent key entry s) as [t f [[]|e]]; simpl;
    now rewrite ?app_nil_r.
Qed.

(** C3: the scenario of the specification.  The source [settings.toml]
    holds a "development" block with [A] and its own merge flag and an
    "other" block; the default environment is "development" and the
    environment list is "default", "development".  In silent mode
    ([load]'s default) there is exactly one sink call: an update with
    [{A: 1}], merge [True] and the identifier "toml" without a suffix;
    the "other" block is not forwarded. *)
Theorem C3_scenario_development (prefix : string) (s : Store) :
  identifier self = "toml" ->
  Str.endswith_any "settings.toml" (extensions self) = true ->
  ensure_a_list "settings.toml" = ["settings.toml"] ->
  file_reader self "settings.toml" = Some Sample.settings_toml ->
  obj_get s "ENVLESS_MODE_FOR_DYNACONF" <> VBool true ->
  py_or (obj_get s "ENVVAR_PREFIX_FOR_DYNACONF") (VStr "") = VStr prefix ->
  obj_get s "DEFAULT_ENV_FOR_DYNACONF" = VStr "development" ->
  build_env_list s (env self) = ["default"; "development"] ->
  upperfy "A" = "A" ->
  upperfy "dynaconf_merge" = "DYNACONF_MERGE" ->
  let r := load self (FStr "settings.toml") None true s in
  value r = Ok tt
  /\ sink_calls (trace r) = [Update [("A", VInt 1)] "toml" false (VBool true)]
  /\ final r = obj_update [("A", VInt 1)] "toml" false (VBool true) s.
Proof.
  intros Hid Hext Hsplit Hfile Henvless Hprefix Hdefault Henvs HA HM r.
  assert (Hfiles : resolve_files self (FStr "settings.toml")
                   = ["settings.toml"]).
  { unfold resolve_files. rewrite Hsplit. simpl. now rewrite Hext. }
  assert (Hread :
    get_source_date self ["settings.toml"] s
    = mkRun [LoadedFile "settings.toml";
             LogDebug (identifier self ++ "_loader: settings.toml")] s
        (Ok [("settings.toml", Sample.settings_toml)])).
  { unfold get_source_date. simpl. unfold bind, read_source.
    rewrite Hext, Hfile. reflexivity. }
  set (file_data := Dict.rekey Str.lower Sample.settings_toml).
  set (top := match Dict.get "dynaconf_merge" file_data with
              | Some v => v
              | None => VNone
              end).
  set (bases := [Str.lower prefix; Str.lower "development"; "development";
                 "dynaconf"; "global"]).
  set (body := load_env self "settings.toml" file_data top bases true None).
  set (block := [("A", VInt 1); ("dynaconf_merge", VBool true)]).
  set (call := Update [("A", VInt 1)] "toml" false (VBool true)).
  assert (Hdef : value (body "default" s) = Ok tt
                 /\ final (body "default" s) = s
                 /\ sink_calls (trace (body "default" s)) = []).
  { subst body. rewrite load_env_absent by reflexivity.
    destruct (negb (existsb (String.eqb (Str.lower "default")) bases));
      simpl; auto. }
  assert (Hdev : value (body "development" s) = Ok tt
                 /\ sink_calls (trace (body "development" s)) = [call]
                 /\ final (body "development" s)
                    = obj_update [("A", VInt 1)] "toml" false (VBool true) s).
  { subst body.
    rewrite (load_env_present "settings.toml" file_data block top bases true
               None "development" "development" s eq_refl Hdefault).
    simpl negb. cbv iota.
    destruct (set_data_bulk block (identifier self) "settings.toml" top None
                (Some (Str.lower "development")) s eq_refl)
      as [Hv [Hc Hf]].
    assert (Hn : normalize block
                 = [("A", VInt 1); ("DYNACONF_MERGE", VBool true)]).
    { unfold normalize, Dict.rekey. simpl. rewrite HA, HM. reflexivity. }
    rewrite Hn in Hc, Hf. rewrite Hid in *.
    split; [exact Hv|]. split; [exact Hc | exact Hf]. }
  destruct Hdef as [Hdv [Hdf Hdc]]. destruct Hdev as [Hvv [Hvc Hvf]].
  subst r. rewrite (load_truthy (FStr "settings.toml") None true s eq_refl).
  change (effective_filename self (FStr "settings.toml") s)
    with (FStr "settings.toml").
  rewrite Hfiles, load_files_unfold, (is_True_false _ Henvless).
  rewrite (bind_run _ _ _ _ (f_equal value Hread)).
  rewrite Hread. simpl trace. simpl final.
  rewrite load_all_envs_one.
  rewrite (load_source_envs_unfold _ _ _ _ _ _ _ Hprefix Hdefault), Henvs.
  fold file_data top bases body.
  change (for_each body ["default"; "development"])
    with (body "default" ;;; for_each body ["development"]).
  rewrite (bind_run _ _ _ _ Hdv), Hdf, for_each_one.
  cbn [trace final value].
  unfold sink_calls in *. cbn [filter is_sink_call].
  rewrite filter_app, Hdc, Hvc. auto.
Qed.

End Properties.

(** ** Further properties of the loader *)

Section Further.
Context {X : Externals}.

Local Notation "x <- m ;; k" := (bind m (fun x => k))
  (at level 61, m at next level, right associativity).
Local Notation "m ;;; k" := (bind m (fun _ => k))
  (at level 61, right associativity).

(** *** Traces and outcomes of composed programs *)

Lemma Forall_trace_bind {A B : Type} (P : event -> Prop)
    (m : M A) (k : A -> M B) s :
  Forall P (trace (m s)) ->
  (forall a s', Forall P (trace (k a s'))) ->
  Forall P (trace (bind m k s)).
Proof.
  intros Hm Hk. unfold bind. destruct (value (m s)); simpl; auto.
  apply Forall_app. split; auto.
Qed.

Lemma Forall_trace_for_each {A : Type} (P : event -> Prop)
    (f : A -> M unit) (l : list A) :
  (forall x s, In x l -> Forall P (trace (f x s))) ->
  forall s, Forall P (trace (for_each f l s)).
Proof.
  induction l as [|x l IH]; intros H s; simpl; [constructor|].
  apply Forall_trace_bind.
  - apply H. now left.
  - intros _ s'. apply IH. intros y s0 Hy. apply H. now right.
Qed.

Lemma raises_only_bind (E : exn -> Prop) {A B : Type}
    (m : M A) (k : A -> M B) :
  raises_only E m -> (forall a, raises_only E (k a)) ->
  raises_only E (bind m k).
Proof.
  intros Hm Hk s. unfold bind. specialize (Hm s).
  destruct (value (m s)) as [a|e]; simpl; auto. apply Hk.
Qed.

Lemma raises_only_for_each (E : exn -> Prop) {A : Type}
    (f : A -> M unit) (l : list A) :
  (forall x, raises_only E (f x)) -> raises_only E (for_each f l).
Proof.
  intros Hf. induction l as [|x l IH]; simpl.
  - intros s. exact I.
  - apply raises_only_bind; auto.
Qed.

Variable self : BaseLoader.

(** *** The audit list of loaded files *)

Lemma loaded_files_app (t1 t2 : list event) :
  loaded_files (t1 ++ t2) = loaded_files t1 ++ loaded_files t2.
Proof. apply flat_map_app. Qed.

Lemma read_source_trace data f s :
  loaded_files (trace (read_source self data f s))
  = (if opened self f then [f] else [])
  /\ sink_calls (trace (read_source self data f s)) = []
  /\ Forall (fun e => match e with
                      | LoadedFile _ | LogDebug _ => True
                      | _ => False
                      end)
       (trace (read_source self data f s)).
Proof.
  unfold read_source, opened.
  destruct (Str.endswith_any f (extensions self)).
  - destruct (file_reader self f) as [c|].
    + destruct (is_nil c); simpl; repeat split; repeat constructor.
    + simpl. repeat split; repeat constructor.
  - destruct (is_nil (string_reader self f)); simpl; repeat split;
      constructor.
Qed.

Lemma get_source_date_trace (files : list string) (s : Store) :
  loaded_files (trace (get_source_date self files s))
  = filter (opened self) files
  /\ sink_calls (trace (get_source_date self files s)) = []
  /\ Forall (fun e => match e with
                      | LoadedFile _ | LogDebug _ => True
                      | _ => False
                      end)
       (trace (get_source_date self files s)).
Proof.
  unfold get_source_date. generalize (@nil (string * pydict)).
  induction files as [|f files IH]; intros data.
  - simpl. repeat split. constructor.
  - rewrite trace_for_fold_cons.
    destruct (read_source_trace data f s) as [Hl [Hs Hf]].
    destruct (IH (data_after self data f)) as [IHl [IHs IHf]].
    rewrite loaded_files_app, sink_calls_app, Hl, Hs, IHl, IHs. simpl.
    split; [|split]; auto.
    + now destruct (opened self f).
    + apply Forall_app. now split.
Qed.

(** X1: [get_source_date] appends to the audit list exactly the sources
    that are files and could be opened, in the order of the input and as
    often as they are listed, whether their content is empty or not; text
    sources and files that are not there are never recorded.  It calls the
    sink for nothing and logs at debug level only. *)
Theorem X1_loaded_files_audit (files : list string) (s : Store) :
  loaded_files (trace (get_source_date self files s))
  = filter (opened self) files
  /\ sink_calls (trace (get_source_date self files s)) = []
  /\ Forall (fun e => match e with
                      | LoadedFile _ | LogDebug _ => True
                      | _ => False
                      end)
       (trace (get_source_date self files s)).
Proof. apply get_source_date_trace. Qed.

(** *** What every run of [load] keeps *)

Lemma set_data_trace_shape data ident src fm key env s :
  let r := _set_data_to_obj self data ident src fm key env s in
  let secret := Str.contains "secret" src in
  let merge := fst (resolve_merge fm (normalize data)) in
  let data' := snd (resolve_merge fm (normalize data)) in
  value r = Ok tt
  /\ (exists head,
        trace r
        = LogData head (if secret then inl (Dict.keys (normalize data))
                        else inr (normalize data))
            :: sink_calls (trace r))
  /\ (sink_calls (trace r) = []
      \/ sink_calls (trace r) = [Update data' ident secret merge]
      \/ exists k v, sink_calls (trace r) = [SetKey k v ident secret merge]).
Proof.
  unfold _set_data_to_obj. rewrite bind_emit.
  destruct key as [k|]; simpl.
  - destruct (Str.nonempty k) eqn:Hk; simpl.
    + destruct (Str.nonempty (upperfy k)); simpl.
      * destruct (Dict.get (upperfy k)
                    (snd (resolve_merge fm (normalize data)))) as [v|]; simpl.
        -- split; auto. split; [eexists; reflexivity|]. right. right. eauto.
        -- split; auto. split; [eexists; reflexivity|]. now left.
      * split; auto. split; [eexists; reflexivity|]. right. now left.
    + rewrite Hk. simpl.
      split; auto. split; [eexists; reflexivity|]. right. now left.
  - split; auto. split; [eexists; reflexivity|]. right. now left.
Qed.

Lemma NoDup_keys_remove {V : Type} (k : string) (d : Dict.t V) :
  NoDup (Dict.keys d) -> NoDup (Dict.keys (Dict.remove k d)).
Proof.
  induction d as [|[k0 v0] d IH]; simpl; intros Hd; auto.
  inversion Hd as [|? ? Hnotin Hd']; subst.
  destruct (k0 =? k); auto. simpl. constructor; auto.
  intros Hin. apply Hnotin. clear -Hin.
  induction d as [|[k1 v1] d IH]; simpl in *; auto.
  destruct (k1 =? k); simpl in *; intuition.
Qed.

Lemma NoDup_keys_resolve_merge fm data :
  NoDup (Dict.keys (snd (resolve_merge fm (normalize data)))).
Proof.
  unfold resolve_merge, Dict.pop.
  destruct (truthy fm); simpl; [apply DictFacts.NoDup_rekey|].
  destruct (Dict.get "DYNACONF_MERGE" (normalize data)); simpl.
  - apply NoDup_keys_remove, DictFacts.NoDup_rekey.
  - apply DictFacts.NoDup_rekey.
Qed.

(** The events of one call of [_set_data_to_obj]. *)
Lemma set_data_events (P : event -> Prop) data ident src fm key env s :
  (forall head, P (LogData head
                     (if Str.contains "secret" src
                      then inl (Dict.keys (normalize data))
                      else inr (normalize data)))) ->
  P (Update (snd (resolve_merge fm (normalize data))) ident
       (Str.contains "secret" src) (fst (resolve_merge fm (normalize data)))) ->
  (forall k v, P (SetKey k v ident (Str.contains "secret" src)
                    (fst (resolve_merge fm (normalize data))))) ->
  Forall P (trace (_set_data_to_obj self data ident src fm key env s)).
Proof.
  intros Hlog Hupdate Hset.
  destruct (set_data_trace_shape data ident src fm key env s)
    as [_ [[head Ht] Hcalls]].
  rewrite Ht. constructor; [apply Hlog|].
  destruct Hcalls as [->|[->|[k [v ->]]]]; repeat constructor; auto.
Qed.

Ltac quiet :=
  match goal with
  | |- Forall _ (trace (as_str ?v _)) => destruct v; constructor
  | |- Forall _ (trace (as_dict ?v _)) => destruct v; constructor
  | |- Forall _ (trace _) => constructor
  end.

(** An invariant of the events of [_set_data_to_obj], for the identifiers
    and the sources it can be called with, is an invariant of the trace of
    [load]. *)
Lemma load_env_invariant (P : event -> Prop) src fd fm bases silent key env s :
  (silent = true -> forall m, P (LogWarning m)) ->
  (forall data ident env' s',
     ident = identifier self
     \/ (exists e, ident = (identifier self ++ "_" ++ Str.lower e)%string) ->
     Forall P (trace (_set_data_to_obj self data ident src fm key env' s'))) ->
  Forall P (trace (load_env self src fd fm bases silent key env s)).
Proof.
  intros Hwarn Hset. unfold load_env.
  destruct (Dict.get (Str.lower env) fd) as [block|].
  - apply Forall_trace_bind; [quiet|]. intros default s1.
    apply Forall_trace_bind; [quiet|]. intros default' s2.
    apply Forall_trace_bind; [quiet|]. intros data s3.
    apply Hset.
    destruct (negb (Str.lower env =? Str.lower default')); eauto.
  - destruct (negb (existsb (String.eqb (Str.lower env)) bases)); [|quiet].
    destruct silent; [|quiet]. repeat constructor. now apply Hwarn.
Qed.

Lemma load_source_envs_invariant (P : event -> Prop) silent key entry s :
  (silent = true -> forall m, P (LogWarning m)) ->
  (forall data ident env' s',
     ident = identifier self
     \/ (exists e, ident = (identifier self ++ "_" ++ Str.lower e)%string) ->
     Forall P (trace (_set_data_to_obj self data ident (fst entry)
                        match Dict.get "dynaconf_merge"
                                (Dict.rekey Str.lower (snd entry)) with
                        | Some v => v
                        | None => VNone
                        end key env' s'))) ->
  Forall P (trace (load_source_envs self silent key entry s)).
Proof.
  intros Hwarn Hset. unfold load_source_envs, base_envs.
  apply Forall_trace_bind.
  - apply Forall_trace_bind; [quiet|]. intros p s1.
    apply Forall_trace_bind; [quiet|]. intros p' s2.
    apply Forall_trace_bind; [quiet|]. intros d s3.
    apply Forall_trace_bind; [quiet|]. intros d' s4. quiet.
  - intros bases s1. apply Forall_trace_bind; [quiet|]. intros envs s2.
    apply Forall_trace_for_each. intros env s3 _.
    apply load_env_invariant; auto.
Qed.

Lemma entries_of_read_sources files : forall data entry,
  In entry (fold_left (data_after self) files data) ->
  In entry data \/ In (fst entry) files.
Proof.
  induction files as [|f files IH]; intros data entry Hin; simpl in *; auto.
  apply IH in Hin. destruct Hin as [Hin|Hin]; auto.
  unfold data_after in Hin.
  destruct (negb (is_nil (content_of self f))); auto.
  clear -Hin. induction data as [|[k v] data IHd]; simpl in *.
  - destruct Hin as [<-|[]]. simpl. auto.
  - destruct (String.eqb_spec k f) as [->|Hne]; simpl in Hin.
    + destruct Hin as [<-|Hin]; simpl; auto.
    + destruct Hin as [<-|Hin]; auto. apply IHd in Hin. tauto.
Qed.

Lemma load_invariant (P : event -> Prop) filename key silent s :
  (forall f, P (LoadedFile f)) ->
  (forall m, P (LogDebug m)) ->
  (silent = true -> forall m, P (LogWarning m)) ->
  (forall data ident src fm env' s',
     In src (resolve_files self (effective_filename self filename s)) ->
     ident = identifier self
     \/ (exists e, ident = (identifier self ++ "_" ++ Str.lower e)%string) ->
     Forall P (trace (_set_data_to_obj self data ident src fm key env' s'))) ->
  Forall P (trace (load self filename key silent s)).
Proof.
  intros Hloaded Hdebug Hwarn Hset.
  destruct (spec_truthy (effective_filename self filename s)) eqn:Ht;
    [rewrite (load_truthy self _ _ _ _ Ht)
    |unfold load; rewrite bind_gets, Ht; quiet].
  set (files := resolve_files self (effective_filename self filename s)) in *.
  rewrite load_files_unfold.
  destruct (get_source_date_spec self files [] s) as [Hv Hf].
  rewrite (bind_value_ok _ _ _ _ Hv Hf). simpl trace.
  apply Forall_app. split.
  - destruct (get_source_date_trace files s) as [_ [_ Hall]].
    eapply Forall_impl; [|exact Hall].
    intros [] He; auto; destruct He.
  - assert (Hsrc : forall entry,
      In entry (fold_left (data_after self) files []) -> In (fst entry) files).
    { intros entry Hin. apply entries_of_read_sources in Hin.
      destruct Hin as [[]|Hin]; auto. }
    destruct (is_True (obj_get s "ENVLESS_MODE_FOR_DYNACONF")).
    + unfold _envless_load. apply Forall_trace_for_each.
      intros entry s' Hin. apply Hset; auto.
    + unfold _load_all_envs. apply Forall_trace_for_each.
      intros entry s' Hin. apply load_source_envs_invariant; [auto|].
      intros data ident env' s0 Hid. apply Hset; auto.
Qed.

(** X2: every call that [load] makes to the sink is tagged with the
    loader's identifier, either bare or followed by an underscore and the
    lower-cased name of an environment; no other provenance tag reaches the
    settings, whatever the sources, the mode and the settings hold. *)
Theorem X2_sink_calls_tagged
    (filename : specifier) (key : option string) (silent : bool) (s : Store) :
  Forall (tagged_by self) (trace (load self filename key silent s)).
Proof.
  apply load_invariant; simpl; auto.
  intros data ident src fm env' s' _ Hid.
  apply set_data_events; simpl; auto.
Qed.

(** *** Keys that collide under [upperfy] *)

Lemma find_last {A : Type} (p : A -> bool) (l : list A) (x : A) :
  find p (l ++ [x])
  = match find p l with
    | Some y => Some y
    | None => if p x then Some x else None
    end.
Proof.
  induction l as [|y l IH]; simpl; auto.
  destruct (p y); auto.
Qed.

Lemma get_fold_set_last (f : string -> string) (K : string) (d : pydict) :
  forall acc : pydict,
    Dict.get K
      (fold_left (fun acc kv => Dict.set (f (fst kv)) (snd kv) acc) d acc)
    = match last_value f K d with
      | Some v => Some v
      | None => Dict.get K acc
      end.
Proof.
  unfold last_value.
  induction d as [|[k v] d IH]; intros acc; simpl; auto.
  rewrite IH, find_last. simpl.
  destruct (find (fun kv => f (fst kv) =? K) (rev d)) as [[k' v']|]; simpl;
    auto.
  destruct (String.eqb_spec (f k) K) as [<-|Hne]; simpl.
  - apply DictFacts.get_set_same.
  - apply DictFacts.get_set_other. congruence.
Qed.

Lemma keys_fold_set_first (f : string -> string) (d : pydict) :
  forall acc : pydict,
    Dict.keys
      (fold_left (fun acc kv => Dict.set (f (fst kv)) (snd kv) acc) d acc)
    = Dict.keys acc
      ++ first_occurrences (Dict.keys acc) (map f (Dict.keys d)).
Proof.
  induction d as [|[k v] d IH]; intros acc; simpl.
  - now rewrite app_nil_r.
  - rewrite IH, DictFacts.keys_set, existsb_eqb_mem.
    destruct (Dict.mem (f k) acc); auto.
    now rewrite <- app_assoc.
Qed.

(** X3: when first-level keys of a block collide under [upperfy], the
    later value wins.  The normalized mapping of line 181 holds each
    normalized key once, at the place of its first spelling, with the value
    of the last entry of the block that is spelled like it; that is the
    mapping the bulk update sends (less the reserved key when line 194 pops
    it), and a key filter sets the value of the last such entry. *)
Theorem X3_colliding_keys_later_value_wins
    (data : pydict) (ident source_file : string) (file_merge : pyval)
    (k : string) (env : option string) (s : Store) :
  let sent := snd (resolve_merge file_merge (normalize data)) in
  let merge := fst (resolve_merge file_merge (normalize data)) in
  let secret := Str.contains "secret" source_file in
  Dict.keys (normalize data)
  = first_occurrences [] (map upperfy (Dict.keys data))
  /\ (forall K, Dict.get K (normalize data) = last_value upperfy K data)
  /\ sink_calls
       (trace (_set_data_to_obj self data ident source_file file_merge None
                 env s))
     = [Update sent ident secret merge]
  /\ NoDup (Dict.keys sent)
  /\ (forall K, K <> "DYNACONF_MERGE" ->
        Dict.get K sent = last_value upperfy K data)
  /\ (k <> "" -> upperfy k <> "" -> upperfy k <> "DYNACONF_MERGE" ->
      sink_calls
        (trace (_set_data_to_obj self data ident source_file file_merge
                  (Some k) env s))
      = match last_value upperfy (upperfy k) data with
        | Some v => [SetKey (upperfy k) v ident secret merge]
        | None => []
        end).
Proof.
  intros sent merge secret.
  assert (Hget : forall K,
            Dict.get K (normalize data) = last_value upperfy K data).
  { intros K. unfold normalize, Dict.rekey.
    rewrite get_fold_set_last. now destruct (last_value upperfy K data). }
  assert (Hsent : forall K, K <> "DYNACONF_MERGE" ->
            Dict.get K sent = last_value upperfy K data).
  { intros K HK. rewrite <- Hget. subst sent. unfold resolve_merge.
    destruct (truthy file_merge); auto.
    now apply DictFacts.get_pop_other. }
  split; [apply (keys_fold_set_first upperfy data [])|].
  split; [exact Hget|]. split.
  - apply (set_data_bulk self data ident source_file file_merge None env s
             eq_refl).
  - split; [apply NoDup_keys_resolve_merge|].
    split; [exact Hsent|]. intros Hk HK Hres.
    destruct (set_data_keyed self data ident source_file file_merge k env s
                (nonempty_true _ Hk) (nonempty_true _ HK)) as [_ Hkeyed].
    fold sent merge secret in Hkeyed. rewrite (Hsent _ Hres) in Hkeyed.
    destruct (last_value upperfy (upperfy k) data); apply Hkeyed.
Qed.

(** X4: secrecy follows the names of the sources.  When every source that
    the specifier resolves to has "secret" in its name, every sink call of
    [load] is flagged secret and every data log line shows key names only,
    never values; when none has, no call is flagged and the log lines show
    the mappings. *)
Theorem X4_secrecy_follows_source_names
    (filename : specifier) (key : option string) (silent : bool) (s : Store)
    (b : bool) :
  (forall f,
     In f (resolve_files self (effective_filename self filename s)) ->
     Str.contains "secret" f = b) ->
  Forall (secrecy_is b) (trace (load self filename key silent s)).
Proof.
  intros Hnames. apply load_invariant; simpl; auto.
  intros data ident src fm env' s' Hsrc _.
  rewrite <- (Hnames src Hsrc).
  apply set_data_events; simpl; auto. intros head.
  now destruct (Str.contains "secret" src).
Qed.

(** *** Silent mode *)

Lemma raises_only_as_str (E : exn -> Prop) (v : pyval) :
  E AttributeError -> raises_only E (as_str v).
Proof. intros HE s. destruct v; simpl; auto. Qed.

Lemma raises_only_as_dict (E : exn -> Prop) (v : pyval) :
  E AttributeError -> raises_only E (as_dict v).
Proof. intros HE s. destruct v; simpl; auto. Qed.

Lemma raises_only_set_data (E : exn -> Prop) data ident src fm key env :
  raises_only E (_set_data_to_obj self data ident src fm key env).
Proof.
  intros s.
  destruct (set_data_trace_shape data ident src fm key env s) as [Hv _].
  now rewrite Hv.
Qed.

Lemma raises_only_gets (E : exn -> Prop) {A : Type} (f : Store -> A) :
  raises_only E (gets f).
Proof. intros s. exact I. Qed.

Lemma silent_load_env src fd fm bases key env :
  raises_only (fun e => e = AttributeError)
    (load_env self src fd fm bases true key env).
Proof.
  unfold load_env. destruct (Dict.get (Str.lower env) fd) as [block|].
  - apply raises_only_bind; [apply raises_only_gets|]. intros d.
    apply raises_only_bind; [now apply raises_only_as_str|]. intros d'.
    apply raises_only_bind; [now apply raises_only_as_dict|]. intros data.
    apply raises_only_set_data.
  - intros s.
    now destruct (negb (existsb (String.eqb (Str.lower env)) bases)).
Qed.

(** X5: in silent mode [load] never raises the lookup error of an
    undefined environment: it returns, or it raises [AttributeError]
    because a setting or a section has the wrong type. *)
Theorem X5_silent_load_raises_no_KeyError
    (filename : specifier) (key : option string) (s : Store) :
  value (load self filename key true s) = Ok tt
  \/ value (load self filename key true s) = Raise AttributeError.
Proof.
  assert (H : raises_only (fun e => e = AttributeError)
                (load self filename key true)).
  { unfold load. apply raises_only_bind; [apply raises_only_gets|].
    intros f. destruct (negb (spec_truthy f)); [intros s'; exact I|].
    unfold load_files. apply raises_only_bind.
    - intros s'. unfold get_source_date.
      destruct (get_source_date_spec self (resolve_files self f) [] s')
        as [Hv _].
      now rewrite Hv.
    - intros sd. apply raises_only_bind; [apply raises_only_gets|].
      intros envless. destruct (is_True envless).
      + unfold _envless_load. apply raises_only_for_each. intros entry.
        apply raises_only_set_data.
      + unfold _load_all_envs. apply raises_only_for_each. intros entry.
        unfold load_source_envs, base_envs.
        apply raises_only_bind.
        * apply raises_only_bind; [apply raises_only_gets|]. intros p.
          apply raises_only_bind; [now apply raises_only_as_str|]. intros p'.
          apply raises_only_bind; [apply raises_only_gets|]. intros d.
          apply raises_only_bind; [now apply raises_only_as_str|]. intros d'.
          intros s'. exact I.
        * intros bases. apply raises_only_bind; [apply raises_only_gets|].
          intros envs. apply raises_only_for_each. intros env.
          apply silent_load_env. }
  specialize (H s).
  destruct (value (load self filename key true s)) as [[]|e]; auto.
  right. now rewrite H.
Qed.

(** *** Envless mode *)

(** With a key filter, envless: one [set] for each source that has the key. *)
Lemma envless_keyed source_data silent k :
  Str.nonempty k = true -> Str.nonempty (upperfy k) = true ->
  forall s,
    value (_envless_load self source_data silent (Some k) s) = Ok tt
    /\ sink_calls (trace (_envless_load self source_data silent (Some k) s))
       = flat_map
           (fun entry =>
              let popped :=
                Dict.pop "DYNACONF_MERGE" (VBool false)
                  (normalize (snd entry)) in
              match Dict.get (upperfy k) (snd popped) with
              | Some v =>
                  [SetKey (upperfy k) v (identifier self)
                     (Str.contains "secret" (fst entry)) (fst popped)]
              | None => []
              end)
           source_data.
Proof.
  intros Hk HK. unfold _envless_load.
  induction source_data as [|[src data] rest IH]; intros s; simpl.
  - now split.
  - destruct (set_data_keyed self data (identifier self) src VNone k None s
                Hk HK) as [Hv Hcalls].
    destruct (trace_bind_ok
                (_set_data_to_obj self data (identifier self) src VNone
                   (Some k) None)
                (fun _ => for_each
                   (fun entry => _set_data_to_obj self (snd entry)
                      (identifier self) (fst entry) VNone (Some k) None) rest)
                s tt Hv) as [Ht Hval].
    rewrite Ht, Hval, sink_calls_app.
    destruct (IH (final (_set_data_to_obj self data (identifier self) src
                           VNone (Some k) None s))) as [IHv IHc].
    rewrite IHv, IHc. split; auto. f_equal.
    change (resolve_merge VNone (normalize data))
      with (Dict.pop "DYNACONF_MERGE" (VBool false) (normalize data))
      in Hcalls.
    unfold pydict in *. revert Hcalls.
    match goal with
    | |- match ?found with _ => _ end -> _ => destruct found
    end; intros [Hc _]; exact Hc.
Qed.

(** X6: in envless mode and without a key filter, [load_files] makes one
    bulk update for each source that [get_source_date] returned, in that
    order and under the loader's bare identifier; the merge flag of each is
    the reserved key popped from the top level of that source, [False] when
    the source has none; and nothing is raised. *)
Theorem X6_envless_one_update_per_source
    (files : list string) (key : option string) (silent : bool) (s : Store) :
  obj_get s "ENVLESS_MODE_FOR_DYNACONF" = VBool true ->
  key_truthy key = false ->
  exists source_data,
    value (get_source_date self files s) = Ok source_data
    /\ value (load_files self files key silent s) = Ok tt
    /\ sink_calls (trace (load_files self files key silent s))
       = map (fun entry =>
                let popped :=
                  Dict.pop "DYNACONF_MERGE" (VBool false)
                    (normalize (snd entry)) in
                Update (snd popped) (identifier self)
                  (Str.contains "secret" (fst entry)) (fst popped))
             source_data.
Proof.
  intros Henvless Hkey.
  destruct (get_source_date_spec self files [] s) as [Hv Hf].
  exists (fold_left (data_after self) files []).
  split; [exact Hv|].
  rewrite load_files_unfold, Henvless. simpl is_True. cbv iota.
  rewrite (bind_value_ok _ _ _ _ Hv Hf). simpl trace. simpl value.
  destruct (envless_bulk_updates self (fold_left (data_after self) files [])
              silent key Hkey s) as [Hval Hcalls].
  destruct (get_source_date_trace files s) as [_ [Hnone _]].
  unfold get_source_date in *.
  rewrite sink_calls_app, Hnone, Hcalls. auto.
Qed.

(** X7: in envless mode with a key filter, [load_files] scans the sources
    in order and makes one [set] for each source whose normalized top level
    has the key, with that source's value; a source without the key adds
    nothing, and nothing is raised. *)
Theorem X7_envless_key_scan
    (files : list string) (k : string) (silent : bool) (s : Store) :
  obj_get s "ENVLESS_MODE_FOR_DYNACONF" = VBool true ->
  k <> "" -> upperfy k <> "" ->
  exists source_data,
    value (get_source_date self files s) = Ok source_data
    /\ value (load_files self files (Some k) silent s) = Ok tt
    /\ sink_calls (trace (load_files self files (Some k) silent s))
       = flat_map
           (fun entry =>
              let popped :=
                Dict.pop "DYNACONF_MERGE" (VBool false)
                  (normalize (snd entry)) in
              match Dict.get (upperfy k) (snd popped) with
              | Some v =>
                  [SetKey (upperfy k) v (identifier self)
                     (Str.contains "secret" (fst entry)) (fst popped)]
              | None => []
              end)
           source_data.
Proof.
  intros Henvless Hk HK.
  destruct (get_source_date_spec self files [] s) as [Hv Hf].
  exists (fold_left (data_after self) files []).
  split; [exact Hv|].
  rewrite load_files_unfold, Henvless. simpl is_True. cbv iota.
  rewrite (bind_value_ok _ _ _ _ Hv Hf). simpl trace. simpl value.
  destruct (envless_keyed (fold_left (data_after self) files []) silent k
              (nonempty_true _ Hk) (nonempty_true _ HK) s) as [Hval Hcalls].
  destruct (get_source_date_trace files s) as [_ [Hnone _]].
  unfold get_source_date in *.
  rewrite sink_calls_app, Hnone, Hcalls. auto.
Qed.

(** *** Strict mode: what a failure leaves behind *)

Lemma bind_raised {A B : Type} (m : M A) (k : A -> M B) s e :
  value (m s) = Raise e ->
  bind m k s = mkRun (trace (m s)) (final (m s)) (Raise e).
Proof. intros H. unfold bind. now rewrite H. Qed.

(** X8: in strict mode nothing is rolled back and nothing more is done.
    When the environments before an undefined one were loaded from a
    source, [_load_all_envs] ends with exactly their effects, trace and
    settings, and the [KeyError]; the environments after the undefined one
    and every later source are not touched. *)
Theorem X8_strict_failure_keeps_earlier_writes
    (entry : string * pydict) (later : list (string * pydict))
    (key : option string) (prefix default name : string)
    (before after : list string) (s : Store) :
  py_or (obj_get s "ENVVAR_PREFIX_FOR_DYNACONF") (VStr "") = VStr prefix ->
  obj_get s "DEFAULT_ENV_FOR_DYNACONF" = VStr default ->
  build_env_list s (env self) = before ++ name :: after ->
  let file_data := Dict.rekey Str.lower (snd entry) in
  let top := match Dict.get "dynaconf_merge" file_data with
             | Some v => v
             | None => VNone
             end in
  let bases := [Str.lower prefix; Str.lower default; "development";
                "dynaconf"; "global"] in
  let body := load_env self (fst entry) file_data top bases false key in
  value (for_each body before s) = Ok tt ->
  Dict.get (Str.lower name) file_data = None ->
  ~ In (Str.lower name) bases ->
  _load_all_envs self (entry :: later) false key s
  = mkRun (trace (for_each body before s)) (final (for_each body before s))
      (Raise (KeyError (undefined_env_message self (Str.lower name)
                          (fst entry)))).
Proof.
  intros Hp Hd Henvs file_data top bases body Hbefore Habsent Hbase.
  assert (Hex : existsb (String.eqb (Str.lower name)) bases = false).
  { destruct (existsb (String.eqb (Str.lower name)) bases) eqn:E; auto.
    apply existsb_eqb_In in E. contradiction. }
  assert (Hsource :
    load_source_envs self false key entry s
    = mkRun (trace (for_each body before s)) (final (for_each body before s))
        (Raise (KeyError (undefined_env_message self (Str.lower name)
                            (fst entry))))).
  { destruct entry as [src data].
    rewrite (load_source_envs_unfold self _ _ _ _ _ _ _ Hp Hd), Henvs.
    simpl fst in *. simpl snd in *. fold file_data top bases body.
    assert (Hfail : forall s1,
      for_each body (name :: after) s1
      = mkRun [] s1
          (Raise (KeyError (undefined_env_message self (Str.lower name) src)))).
    { intros s1. simpl for_each. unfold bind. subst body.
      rewrite (load_env_absent self _ _ _ _ _ _ _ _ Habsent), Hex.
      reflexivity. }
    rewrite for_each_app, (bind_run _ _ _ _ Hbefore), Hfail.
    simpl. now rewrite app_nil_r. }
  unfold _load_all_envs. simpl for_each.
  rewrite (bind_raised _ _ _ _ (f_equal value Hsource)).
  now rewrite Hsource.
Qed.

(** *** Sections that are empty or malformed *)

(** X9: an environment that the source names with a falsy value (an empty
    section, a null) counts as an empty mapping: without a key filter the
    sink still gets one bulk update, with no entries and with the top-level
    merge flag or [False]; with a key filter nothing reaches the sink. *)
Theorem X9_empty_section
    (source_file : string) (file_data : pydict) (file_merge block : pyval)
    (bases : list string) (silent : bool) (key : option string)
    (name default : string) (s : Store) :
  Dict.get (Str.lower name) file_data = Some block ->
  truthy block = false ->
  obj_get s "DEFAULT_ENV_FOR_DYNACONF" = VStr default ->
  let r := load_env self source_file file_data file_merge bases silent key
             name s in
  let ident :=
    (if negb (Str.lower name =? Str.lower default)
     then identifier self ++ "_" ++ Str.lower name
     else identifier self)%string in
  value r = Ok tt
  /\ (key_truthy key = false ->
      sink_calls (trace r)
      = [Update [] ident (Str.contains "secret" source_file)
           (if truthy file_merge then file_merge else VBool false)])
  /\ (forall k, key = Some k -> k <> "" -> upperfy k <> "" ->
      sink_calls (trace r) = []).
Proof.
  intros Hblock Hfalsy Hdefault r ident.
  assert (Hrun :
    r = _set_data_to_obj self [] ident source_file file_merge key
          (Some (Str.lower name)) s).
  { subst r. unfold load_env. rewrite Hblock.
    rewrite bind_gets, Hdefault. simpl as_str. rewrite bind_ret.
    unfold py_or. rewrite Hfalsy. simpl as_dict. now rewrite bind_ret. }
  rewrite Hrun. split; [|split].
  - now destruct (set_data_trace_shape [] ident source_file file_merge key
                    (Some (Str.lower name)) s).
  - intros Hkey.
    destruct (set_data_bulk self [] ident source_file file_merge key
                (Some (Str.lower name)) s Hkey) as [_ [Hcalls _]].
    rewrite Hcalls. unfold resolve_merge.
    now destruct (truthy file_merge).
  - intros k -> Hk HK.
    destruct (set_data_keyed self [] ident source_file file_merge k
                (Some (Str.lower name)) s (nonempty_true _ Hk)
                (nonempty_true _ HK)) as [_ Hcalls].
    revert Hcalls. unfold resolve_merge.
    destruct (truthy file_merge); simpl; tauto.
Qed.

(** X10: silent mode does not silence a malformed section.  When the
    source maps an environment of the list to a truthy value that is not a
    mapping (a number, a string, a list), [load_env] raises
    [AttributeError] in silent and in strict mode alike, before any log
    line or sink call for that environment. *)
Theorem X10_malformed_section_raises
    (source_file : string) (file_data : pydict) (file_merge block : pyval)
    (bases : list string) (silent : bool) (key : option string)
    (name : string) (s : Store) :
  Dict.get (Str.lower name) file_data = Some block ->
  truthy block = true ->
  (forall d, block <> VDict d) ->
  load_env self source_file file_data file_merge bases silent key name s
  = mkRun [] s (Raise AttributeError).
Proof.
  intros Hblock Htruthy Hshape. unfold load_env. rewrite Hblock.
  rewrite bind_gets. unfold py_or. rewrite Htruthy.
  destruct (obj_get s "DEFAULT_ENV_FOR_DYNACONF"); simpl as_str;
    try reflexivity.
  rewrite bind_ret.
  destruct block; try reflexivity. exfalso. now apply (Hshape d).
Qed.

(** *** Environment names are compared in lower case *)

Lemma lower_upper_ascii (c : ascii) :
  Str.lower_ascii (Str.upper_ascii c) = Str.lower_ascii c.
Proof. destruct c as [[] [] [] [] [] [] [] []]; reflexivity. Qed.

Lemma lower_upper (k : string) : Str.lower (Str.upper k) = Str.lower k.
Proof.
  induction k as [|c k IH]; simpl; auto.
  unfold Str.lower, Str.upper in *. simpl.
  now rewrite lower_upper_ascii, IH.
Qed.

Lemma rekey_recase (f g : string -> string) (d : pydict) :
  (forall k, f (g k) = f k) -> Dict.rekey f (recase g d) = Dict.rekey f d.
Proof.
  intros Hfg. unfold Dict.rekey, recase. generalize (@nil (string * pyval)).
  induction d as [|[k v] d IH]; intros acc; simpl; auto.
  now rewrite Hfg, IH.
Qed.

Lemma for_each_map {A B : Type} (f : B -> M unit) (h : A -> B) (l : list A) :
  forall s, for_each f (map h l) s = for_each (fun x => f (h x)) l s.
Proof.
  induction l as [|x l IH]; intros s; simpl; auto.
  apply bind_ext; auto.
Qed.

(** X11: the names of environments are case-insensitive on both sides.
    Spelling the top-level keys of the sources in another case (any
    respelling that leaves the lower-cased name unchanged) does not change
    what [_load_all_envs] does, and neither does respelling a name of the
    environment list. *)
Theorem X11_environment_names_ignore_case
    (g : string -> string) (source_data : Dict.t pydict) (silent : bool)
    (key : option string) (s : Store) :
  (forall k, Str.lower (g k) = Str.lower k) ->
  _load_all_envs self
    (map (fun entry => (fst entry, recase g (snd entry))) source_data)
    silent key s
  = _load_all_envs self source_data silent key s
  /\ forall source_file file_data file_merge bases name s',
       load_env self source_file file_data file_merge bases silent key
         (g name) s'
       = load_env self source_file file_data file_merge bases silent key
           name s'.
Proof.
  intros Hg. split.
  - unfold _load_all_envs. rewrite for_each_map.
    apply for_each_ext. intros [src data] s' _.
    unfold load_source_envs. simpl fst. simpl snd.
    now rewrite (rekey_recase Str.lower g data Hg).
  - intros source_file file_data file_merge bases name s'.
    unfold load_env. now rewrite Hg.
Qed.

(** *** [warn_not_installed] *)

Lemma first_occurrences_ext (l : list string) : forall seen seen',
  (forall x, In x seen <-> In x seen') ->
  first_occurrences seen l = first_occurrences seen' l.
Proof.
  induction l as [|x l IH]; intros seen seen' Hsame; simpl; auto.
  assert (Hx : existsb (String.eqb x) seen = existsb (String.eqb x) seen').
  { destruct (existsb (String.eqb x) seen') eqn:E.
    - apply existsb_eqb_In. apply Hsame. now apply existsb_eqb_In.
    - destruct (existsb (String.eqb x) seen) eqn:E'; auto.
      apply existsb_eqb_In, Hsame, existsb_eqb_In in E'. congruence. }
  rewrite Hx. destruct (existsb (String.eqb x) seen').
  - now apply IH.
  - f_equal. apply IH. intros y. rewrite !in_app_iff, Hsame. tauto.
Qed.

Lemma first_occurrences_new (l : list string) : forall seen,
  NoDup (first_occurrences seen l)
  /\ forall x, In x (first_occurrences seen l) -> In x l /\ ~ In x seen.
Proof.
  induction l as [|x l IH]; intros seen; simpl.
  - split; [constructor | intros x []].
  - destruct (existsb (String.eqb x) seen) eqn:E.
    + destruct (IH seen) as [Hnd Hin]. split; auto.
      intros y Hy. destruct (Hin y Hy). auto.
    + destruct (IH (seen ++ [x])) as [Hnd Hin]. split.
      * constructor; auto. intros Hx. destruct (Hin x Hx) as [_ Hnot].
        apply Hnot, in_or_app. right. now left.
      * intros y [<-|Hy].
        -- split; auto. intros Hin'. apply existsb_eqb_In in Hin'. congruence.
        -- destruct (Hin y Hy) as [Hl Hnot]. split; auto.
           intros Hs. apply Hnot, in_or_app. now left.
Qed.

(** X12: over any sequence of calls, [warn_not_installed] logs one warning
    for each identifier that was not on the list before, at its first call
    and never again, in the order of the calls; and it appends the
    identifier to the list at every call, so that the list grows by one
    entry a call, repetitions included. *)
Theorem X12_warn_not_installed_once
    (warnings identifiers : list string) :
  fst (warn_each warnings identifiers)
  = map (fun i => LogWarning (not_installed_message i))
        (first_occurrences warnings identifiers)
  /\ snd (warn_each warnings identifiers) = warnings ++ identifiers
  /\ NoDup (first_occurrences warnings identifiers)
  /\ (forall i, In i (first_occurrences warnings identifiers) ->
              In i identifiers /\ ~ In i warnings).
Proof.
  split; [|split; [|apply first_occurrences_new]].
  - revert warnings.
    induction identifiers as [|i rest IH]; intros warnings; simpl; auto.
    rewrite IH. destruct (existsb (String.eqb i) warnings) eqn:E; simpl; auto.
    f_equal. apply first_occurrences_ext. intros x.
    rewrite in_app_iff. apply existsb_eqb_In in E. simpl.
    split; [intros [H|[<-|[]]]; auto | auto].
  - revert warnings.
    induction identifiers as [|i rest IH]; intros warnings; simpl.
    + now rewrite app_nil_r.
    + rewrite IH. now rewrite <- app_assoc.
Qed.

(** *** A whole source *)

(** X13: a truthy merge flag at the top level of a source reaches every
    sink call made for that source, for every environment of the list and
    whatever flags the blocks carry themselves. *)
Theorem X13_top_level_flag_reaches_every_call
    (entry : string * pydict) (silent : bool) (key : option string)
    (top : pyval) (s : Store) :
  Dict.get "dynaconf_merge" (Dict.rekey Str.lower (snd entry)) = Some top ->
  truthy top = true ->
  Forall (fun e => match merge_of e with
                   | Some merge => merge = top
                   | None => True
                   end)
         (trace (load_source_envs self silent key entry s)).
Proof.
  intros Htop Htruthy.
  apply load_source_envs_invariant; [intros _ m; exact I|].
  intros data ident env' s' _. unfold pydict in *. rewrite Htop.
  assert (Hflag : fst (resolve_merge top (normalize data)) = top)
    by (unfold resolve_merge; now rewrite Htruthy).
  apply set_data_events; simpl; auto.
Qed.

Lemma for_each_absent src fd fm bases key envs : forall s,
  (forall name, In name envs -> Dict.get (Str.lower name) fd = None) ->
  for_each (load_env self src fd fm bases true key) envs s
  = mkRun
      (map (fun name =>
              LogWarning (undefined_env_message self (Str.lower name) src))
         (filter (fun name =>
                    negb (existsb (String.eqb (Str.lower name)) bases))
            envs))
      s (Ok tt).
Proof.
  induction envs as [|name envs IH]; intros s Habsent; simpl; auto.
  assert (Hstep := load_env_absent self src fd fm bases true key name s
                     (Habsent name (or_introl eq_refl))).
  assert (Hrest := IH s (fun n Hn => Habsent n (or_intror Hn))).
  destruct (negb (existsb (String.eqb (Str.lower name)) bases)).
  - unfold bind. rewrite Hstep. simpl. now rewrite Hrest.
  - unfold bind. rewrite Hstep. simpl. now rewrite Hrest.
Qed.

(** X14: a source that defines none of the environments of the list is
    passed over in silent mode: nothing reaches the sink, the settings are
    as before, nothing is raised, and there is one warning, in the order of
    the list, for each name that is not a base environment. *)
Theorem X14_source_without_requested_environments
    (source_file : string) (data : pydict) (key : option string)
    (prefix default : string) (s : Store) :
  py_or (obj_get s "ENVVAR_PREFIX_FOR_DYNACONF") (VStr "") = VStr prefix ->
  obj_get s "DEFAULT_ENV_FOR_DYNACONF" = VStr default ->
  (forall name,
     In name (build_env_list s (env self)) ->
     Dict.get (Str.lower name) (Dict.rekey Str.lower data) = None) ->
  let bases := [Str.lower prefix; Str.lower default; "development";
                "dynaconf"; "global"] in
  load_source_envs self true key (source_file, data) s
  = mkRun
      (map (fun name =>
              LogWarning
                (undefined_env_message self (Str.lower name) source_file))
         (filter (fun name =>
                    negb (existsb (String.eqb (Str.lower name)) bases))
            (build_env_list s (env self))))
      s (Ok tt).
Proof.
  intros Hp Hd Habsent bases.
  rewrite (load_source_envs_unfold self _ _ _ _ _ _ _ Hp Hd).
  now apply for_each_absent.
Qed.

(** *** Configuration keys are compared after [upperfy] *)

(** X15: the first-level keys of a block and the key filter are
    case-insensitive as far as [upperfy] is: respelling the keys of the
    data, or the requested key, in a way that [upperfy] does not tell apart
    changes nothing of what [_set_data_to_obj] does. *)
Theorem X15_configuration_keys_ignore_case
    (g : string -> string) (data : pydict) (ident source_file : string)
    (file_merge : pyval) (key : option string) (k : string)
    (env : option string) (s : Store) :
  (forall x, upperfy (g x) = upperfy x) ->
  _set_data_to_obj self (recase g data) ident source_file file_merge key env s
  = _set_data_to_obj self data ident source_file file_merge key env s
  /\ (k <> "" -> g k <> "" ->
      _set_data_to_obj self data ident source_file file_merge (Some (g k))
        env s
      = _set_data_to_obj self data ident source_file file_merge (Some k)
          env s).
Proof.
  intros Hg. split.
  - unfold _set_data_to_obj, normalize.
    now rewrite (rekey_recase upperfy g data Hg).
  - intros Hk Hgk. unfold _set_data_to_obj. simpl key_truthy.
    rewrite (nonempty_true _ Hk), (nonempty_true _ Hgk). simpl option_map.
    now rewrite Hg.
Qed.

(** *** A falsy key filter *)

Lemma bulk_only_app (t1 t2 : list event) :
  bulk_only t1 = true -> bulk_only t2 = true -> bulk_only (t1 ++ t2) = true.
Proof.
  remember (length t1) as n eqn:Hn. revert t1 Hn.
  induction n as [n IH] using lt_wf_ind. intros t1 Hn H1 H2.
  destruct t1 as [|e t1]; [exact H2|].
  destruct e; simpl in H1 |- *; try discriminate;
    try (apply (IH (length t1)); subst; simpl; auto).
  destruct t1 as [|e t1]; [discriminate|].
  destruct e; try discriminate. simpl.
  apply (IH (length t1)); subst; simpl; auto.
Qed.

Lemma bulk_only_quiet (tr : list event) :
  Forall (fun e => match e with
                   | LoadedFile _ | LogDebug _ | LogWarning _ => True
                   | _ => False
                   end) tr ->
  bulk_only tr = true.
Proof.
  induction 1 as [|e tr He _ IH]; auto.
  destruct e; simpl; auto; destruct He.
Qed.

Lemma bulk_only_bind {A B : Type} (m : M A) (k : A -> M B) s :
  bulk_only (trace (m s)) = true ->
  (forall a s', bulk_only (trace (k a s')) = true) ->
  bulk_only (trace (bind m k s)) = true.
Proof.
  intros Hm Hk. unfold bind. destruct (value (m s)); simpl; auto.
  now apply bulk_only_app.
Qed.

Lemma bulk_only_for_each {A : Type} (f : A -> M unit) (l : list A) :
  (forall x s, bulk_only (trace (f x s)) = true) ->
  forall s, bulk_only (trace (for_each f l s)) = true.
Proof.
  intros Hf. induction l as [|x l IH]; intros s; simpl; auto.
  apply bulk_only_bind; auto.
Qed.

(** Without a key filter a call of [_set_data_to_obj] is the data log line
    and the bulk update, nothing else. *)
Lemma set_data_bulk_trace data ident src fm key env s :
  key_truthy key = false ->
  exists head shown,
    trace (_set_data_to_obj self data ident src fm key env s)
    = [LogData head shown;
       Update (snd (resolve_merge fm (normalize data))) ident
         (Str.contains "secret" src)
         (fst (resolve_merge fm (normalize data)))].
Proof.
  intros Hkey. unfold _set_data_to_obj. rewrite Hkey, bind_emit. simpl.
  rewrite Hkey. simpl. eauto.
Qed.

Ltac silent_step :=
  match goal with
  | |- bulk_only (trace (as_str ?v _)) = true => destruct v; reflexivity
  | |- bulk_only (trace (as_dict ?v _)) = true => destruct v; reflexivity
  | |- bulk_only (trace _) = true => reflexivity
  end.

Lemma load_env_bulk_only src fd fm bases silent key env s :
  key_truthy key = false ->
  bulk_only (trace (load_env self src fd fm bases silent key env s)) = true.
Proof.
  intros Hkey. unfold load_env.
  destruct (Dict.get (Str.lower env) fd) as [block|].
  - apply bulk_only_bind; [silent_step|]. intros default s1.
    apply bulk_only_bind; [silent_step|]. intros default' s2.
    apply bulk_only_bind; [silent_step|]. intros data s3.
    destruct (set_data_bulk_trace data
                (if negb (Str.lower env =? Str.lower default')
                 then identifier self ++ "_" ++ Str.lower env
                 else identifier self)%string
                src fm key (Some (Str.lower env)) s3 Hkey)
      as [head [shown Ht]].
    now rewrite Ht.
  - destruct (negb (existsb (String.eqb (Str.lower env)) bases));
      [|reflexivity].
    now destruct silent.
Qed.

Lemma load_bulk_only filename key silent s :
  key_truthy key = false ->
  bulk_only (trace (load self filename key silent s)) = true.
Proof.
  intros Hkey. unfold load.
  apply bulk_only_bind; [silent_step|]. intros f s1.
  destruct (negb (spec_truthy f)); [reflexivity|].
  unfold load_files. apply bulk_only_bind.
  - destruct (get_source_date_trace (resolve_files self f) s1)
      as [_ [_ Hall]].
    apply bulk_only_quiet. eapply Forall_impl; [|exact Hall].
    intros []; auto.
  - intros sd s2. apply bulk_only_bind; [silent_step|]. intros envless s3.
    destruct (is_True envless).
    + unfold _envless_load. apply bulk_only_for_each. intros entry s4.
      destruct (set_data_bulk_trace (snd entry) (identifier self)
                  (fst entry) VNone key None s4 Hkey) as [head [shown Ht]].
      now rewrite Ht.
    + unfold _load_all_envs. apply bulk_only_for_each. intros entry s4.
      unfold load_source_envs, base_envs.
      apply bulk_only_bind.
      * apply bulk_only_bind; [silent_step|]. intros p s5.
        apply bulk_only_bind; [silent_step|]. intros p' s6.
        apply bulk_only_bind; [silent_step|]. intros d s7.
        apply bulk_only_bind; [silent_step|]. intros d' s8. silent_step.
      * intros bases s5. apply bulk_only_bind; [silent_step|].
        intros envs s6. apply bulk_only_for_each. intros env s7.
        now apply load_env_bulk_only.
Qed.

Lemma trace_bind_prefix {A B : Type} (m : M A) (k : A -> M B) s :
  exists t, trace (bind m k s) = trace (m s) ++ t.
Proof.
  unfold bind. destruct (value (m s)); simpl.
  - eexists. reflexivity.
  - exists []. now rewrite app_nil_r.
Qed.

(** Per-environment mode without a key filter: once the sources before
    this one and the environments before this one are through, a block
    that the source defines is written by one bulk update. *)
Lemma load_all_envs_block sources_before src data sources_after
    prefix default default' before name after block silent key s :
  key_truthy key = false ->
  let r0 := _load_all_envs self sources_before silent key s in
  value r0 = Ok tt ->
  py_or (obj_get (final r0) "ENVVAR_PREFIX_FOR_DYNACONF") (VStr "")
  = VStr prefix ->
  obj_get (final r0) "DEFAULT_ENV_FOR_DYNACONF" = VStr default ->
  build_env_list (final r0) (env self) = before ++ name :: after ->
  let file_data := Dict.rekey Str.lower data in
  let top := match Dict.get "dynaconf_merge" file_data with
             | Some v => v
             | None => VNone
             end in
  let bases := [Str.lower prefix; Str.lower default; "development";
                "dynaconf"; "global"] in
  let earlier :=
    for_each (load_env self src file_data top bases silent key) before
      (final r0) in
  value earlier = Ok tt ->
  Dict.get (Str.lower name) file_data = Some (VDict block) ->
  obj_get (final earlier) "DEFAULT_ENV_FOR_DYNACONF" = VStr default' ->
  exists tail,
    sink_calls
      (trace (_load_all_envs self
                (sources_before ++ (src, data) :: sources_after) silent key s))
    = sink_calls (trace r0) ++ sink_calls (trace earlier)
      ++ Update (snd (resolve_merge top (normalize block)))
           (if negb (Str.lower name =? Str.lower default')
            then identifier self ++ "_" ++ Str.lower name
            else identifier self)%string
           (Str.contains "secret" src)
           (fst (resolve_merge top (normalize block)))
         :: tail.
Proof.
  intros Hkey r0 Hr0 Hp Hd Henvs file_data top bases earlier Hearlier Hblock
    Hd'.
  set (body := load_env self src file_data top bases silent key) in *.
  unfold _load_all_envs in *.
  rewrite for_each_app, (bind_run _ _ _ _ Hr0). fold r0. cbn [trace].
  change (for_each (load_source_envs self silent key)
            ((src, data) :: sources_after))
    with (load_source_envs self silent key (src, data)
          ;;; for_each (load_source_envs self silent key) sources_after).
  destruct (trace_bind_prefix
              (load_source_envs self silent key (src, data))
              (fun _ => for_each (load_source_envs self silent key)
                          sources_after) (final r0)) as [t1 Ht1].
  rewrite Ht1, (load_source_envs_unfold self _ _ _ _ _ _ _ Hp Hd), Henvs.
  fold file_data top bases body.
  rewrite for_each_app, (bind_run _ _ _ _ Hearlier). fold earlier.
  cbn [trace].
  change (for_each body (name :: after))
    with (body name ;;; for_each body after).
  destruct (trace_bind_prefix (body name) (fun _ => for_each body after)
              (final earlier)) as [t2 Ht2].
  rewrite Ht2. subst body.
  rewrite (load_env_present self _ _ _ _ _ _ _ _ _ _ Hblock Hd').
  match goal with
  | |- context [_set_data_to_obj self block ?ident src top key ?e ?s1] =>
      destruct (set_data_bulk self block ident src top key e s1 Hkey)
        as [_ [Hcalls _]]
  end.
  rewrite !sink_calls_app, Hcalls.
  exists (sink_calls t2 ++ sink_calls t1).
  now rewrite <- !app_assoc.
Qed.

(** C10 (amended): the empty string as key is no key filter.  In every run
    of [load] with it the sink gets no [set], and every block handed to
    [_set_data_to_obj] is written by one bulk update.  In envless mode
    there is one bulk update for each source with content, in order, with
    the normalized mapping of the whole source less the reserved key.  In
    per-environment mode it is the blocks that are written, not the
    sources: for a source that was read and an environment of the list that
    it defines, once the sources and the environments before them are
    through, there is one bulk update with the normalized mapping of that
    block. *)
Theorem C10_falsy_key_is_bulk
    (filename : specifier) (silent : bool) (s : Store) :
  let r := load self filename (Some "") silent s in
  let files := resolve_files self (effective_filename self filename s) in
  bulk_only (trace r) = true
  /\ (spec_truthy (effective_filename self filename s) = true ->
      obj_get s "ENVLESS_MODE_FOR_DYNACONF" = VBool true ->
      exists source_data,
        value (get_source_date self files s) = Ok source_data
        /\ Dict.keys source_data
           = first_occurrences [] (filter (has_content self) files)
        /\ value r = Ok tt
        /\ sink_calls (trace r)
           = map (fun entry =>
                    let popped :=
                      Dict.pop "DYNACONF_MERGE" (VBool false)
                        (normalize (snd entry)) in
                    Update (snd popped) (identifier self)
                      (Str.contains "secret" (fst entry)) (fst popped))
                 source_data)
  /\ (forall sources_before src data sources_after prefix default default'
        before name after block,
      spec_truthy (effective_filename self filename s) = true ->
      obj_get s "ENVLESS_MODE_FOR_DYNACONF" <> VBool true ->
      value (get_source_date self files s)
      = Ok (sources_before ++ (src, data) :: sources_after) ->
      let r0 := _load_all_envs self sources_before silent (Some "") s in
      value r0 = Ok tt ->
      py_or (obj_get (final r0) "ENVVAR_PREFIX_FOR_DYNACONF") (VStr "")
      = VStr prefix ->
      obj_get (final r0) "DEFAULT_ENV_FOR_DYNACONF" = VStr default ->
      build_env_list (final r0) (env self) = before ++ name :: after ->
      let file_data := Dict.rekey Str.lower data in
      let top := match Dict.get "dynaconf_merge" file_data with
                 | Some v => v
                 | None => VNone
                 end in
      let bases := [Str.lower prefix; Str.lower default; "development";
                    "dynaconf"; "global"] in
      let earlier :=
        for_each (load_env self src file_data top bases silent (Some ""))
          before (final r0) in
      value earlier = Ok tt ->
      Dict.get (Str.lower name) file_data = Some (VDict block) ->
      obj_get (final earlier) "DEFAULT_ENV_FOR_DYNACONF" = VStr default' ->
      exists tail,
        sink_calls (trace r)
        = sink_calls (trace r0) ++ sink_calls (trace earlier)
          ++ Update (snd (resolve_merge top (normalize block)))
               (if negb (Str.lower name =? Str.lower default')
                then identifier self ++ "_" ++ Str.lower name
                else identifier self)%string
               (Str.contains "secret" src)
               (fst (resolve_merge top (normalize block)))
             :: tail).
Proof.
  intros r files.
  destruct (get_source_date_spec self files [] s) as [Hv Hf].
  destruct (get_source_date_trace files s) as [_ [Hnone _]].
  split; [apply load_bulk_only; reflexivity|]. split.
  - intros Ht Henvless.
    exists (fold_left (data_after self) files []).
    split; [exact Hv|].
    split; [apply (keys_fold_data_after self files [])|].
    subst r. rewrite (load_truthy self _ _ _ _ Ht). fold files.
    rewrite load_files_unfold, Henvless. simpl is_True. cbv iota.
    rewrite (bind_value_ok _ _ _ _ Hv Hf). simpl trace. simpl value.
    destruct (envless_bulk_updates self (fold_left (data_after self) files [])
                silent (Some "") eq_refl s) as [Hval Hcalls].
    unfold get_source_date in *.
    rewrite sink_calls_app, Hnone, Hcalls. auto.
  - intros sources_before src data sources_after prefix default default'
      before name after block Ht Hmode Hsrc r0 Hr0 Hp Hd Henvs file_data top
      bases earlier Hearlier Hblock Hd'.
    destruct (load_all_envs_block sources_before src data sources_after
                prefix default default' before name after block silent
                (Some "") s eq_refl Hr0 Hp Hd Henvs Hearlier Hblock Hd')
      as [tail Htail].
    exists tail.
    subst r. rewrite (load_truthy self _ _ _ _ Ht). fold files.
    rewrite load_files_unfold, (is_True_false _ Hmode).
    rewrite (bind_value_ok _ _ _ _ Hsrc Hf). cbn [trace].
    rewrite sink_calls_app, Hnone. exact Htail.
Qed.

End Further.

(** ** The loader at work on the sample collaborators *)

#[local] Existing Instance Sample.externals.

(** The model run on a list of sources that repeats one, names a file that
    does not exist and one that is empty, and ends with inline text. *)
Example get_source_date_sample :
  value (get_source_date Sample.loader
           ["settings.toml"; "missing.toml"; "empty.toml"; "a = 1";
            "settings.toml"] Sample.settings)
  = Ok [("settings.toml", Sample.settings_toml); ("a = 1", [("a", VInt 1)])].
Proof. reflexivity. Qed.

(** In strict mode the scenario of C3 raises at "default", which the source
    does not define and which is not a base environment here. *)
Example scenario_strict :
  load Sample.loader (FStr "settings.toml") None false Sample.settings
  = mkRun [LoadedFile "settings.toml"; LogDebug "toml_loader: settings.toml"]
      Sample.settings
      (Raise (KeyError "toml_loader: default env notdefined in settings.toml")).
Proof. reflexivity. Qed.

(** C1, as stated, fails: in [merged.toml] the "development" block carries
    its own merge flag [False] while the source has the top-level flag
    [True]; the sink receives merge [True]. *)
Lemma C1_block_flag_overridden :
  Dict.get "development" (Dict.rekey Str.lower Sample.merged_toml)
  = Some (VDict [("a", VInt 1); ("dynaconf_merge", VBool false)])
  /\ Dict.get "DYNACONF_MERGE"
       (normalize [("a", VInt 1); ("dynaconf_merge", VBool false)])
     = Some (VBool false)
  /\ map merge_of
       (sink_calls
          (trace (load Sample.loader (FStr "merged.toml") None true
                    Sample.settings)))
     = [Some (VBool true)].
Proof. repeat split. Qed.

Lemma C1_merge_flag_resolution_witness :
  Dict.get (Str.lower "development") (Dict.rekey Str.lower Sample.merged_toml)
  = Some (VDict [("a", VInt 1); ("dynaconf_merge", VBool false)])
  /\ obj_get Sample.settings "DEFAULT_ENV_FOR_DYNACONF" = VStr "development"
  /\ Forall (fun call => merge_of call = Some (VBool true))
       (sink_calls
          (trace (load_env Sample.loader "merged.toml"
                    (Dict.rekey Str.lower Sample.merged_toml) (VBool true)
                    [] true None "development" Sample.settings))).
Proof.
  split; [reflexivity|]. split; [reflexivity|].
  exact (proj1 (C1_merge_flag_resolution Sample.loader "merged.toml"
                  (Dict.rekey Str.lower Sample.merged_toml)
                  [("a", VInt 1); ("dynaconf_merge", VBool false)]
                  [] true None "development" "development" Sample.settings
                  eq_refl eq_refl)).
Defined.

(** C2, at the failing input: with a truthy top-level merge flag the [pop]
    of line 194 is not evaluated, and the update that reaches the sink still
    holds the block's reserved key. *)
Theorem C2_reserved_key_reaches_sink :
  sink_calls
    (trace (load Sample.loader (FStr "merged.toml") None true Sample.settings))
  = [Update [("A", VInt 1); ("DYNACONF_MERGE", VBool false)] "toml" false
       (VBool true)].
Proof. reflexivity. Qed.

Lemma C3_scenario_development_witness :
  identifier Sample.loader = "toml"
  /\ ensure_a_list "settings.toml" = ["settings.toml"]
  /\ file_reader Sample.loader "settings.toml" = Some Sample.settings_toml
  /\ obj_get Sample.settings "DEFAULT_ENV_FOR_DYNACONF" = VStr "development"
  /\ build_env_list Sample.settings (env Sample.loader)
     = ["default"; "development"]
  /\ sink_calls
       (trace (load Sample.loader (FStr "settings.toml") None true
                 Sample.settings))
     = [Update [("A", VInt 1)] "toml" false (VBool true)].
Proof.
  repeat (split; [reflexivity|]).
  refine (proj1 (proj2 (C3_scenario_development Sample.loader "DYNACONF"
                          Sample.settings eq_refl eq_refl eq_refl eq_refl _
                          eq_refl eq_refl eq_refl eq_refl eq_refl))).
  discriminate.
Defined.

Lemma C4_undefined_environment_witness :
  build_env_list Sample.settings (env Sample.loader)
  = ["default"; "development"]
  /\ load_source_envs Sample.loader true None
       ("other.toml", Cases.other_toml) Sample.settings
     = mkRun [LogWarning "toml_loader: default env notdefined in other.toml"]
         Sample.settings (Ok tt)
  /\ load_source_envs (X := Cases.staged) Sample.loader true None
       ("other.toml", Cases.other_toml) Sample.settings
     = mkRun (X := Cases.staged)
         [LogWarning "toml_loader: staging env notdefined in other.toml"]
         Sample.settings (Ok tt)
  /\ load_source_envs Sample.loader false None
       ("other.toml", Cases.other_toml) Sample.settings
     = mkRun [] Sample.settings
         (Raise
            (KeyError "toml_loader: default env notdefined in other.toml"))
  /\ load_source_envs (X := Cases.staged) Sample.loader false None
       ("settings.toml", Sample.settings_toml) Sample.settings
     = mkRun (X := Cases.staged)
         [LogData "toml_loader: settings.toml[development]"
            (inr [("A", VInt 1); ("DYNACONF_MERGE", VBool true)]);
          Update [("A", VInt 1)] "toml" false (VBool true)]
         (Sample.settings ++ [("A", VInt 1)])
         (Raise
            (KeyError "toml_loader: staging env notdefined in settings.toml")).
Proof.
  split; [reflexivity|]. split; [|split; [|split]].
  - (* "default" is absent and no base environment: one warning *)
    refine (proj1 (proj2 (C4_undefined_environment (X := Sample.externals)
              Sample.loader "other.toml" Cases.other_toml "DYNACONF"
              "development" true None [] "default" ["development"]
              Sample.settings eq_refl eq_refl eq_refl eq_refl eq_refl))
              _ eq_refl).
    simpl. intros [H|[H|[H|[H|[H|[]]]]]]; discriminate H.
  - (* "development" is absent and a base environment: no trace of it,
       the loop goes on to "staging" *)
    refine (proj1 (C4_undefined_environment (X := Cases.staged)
              Sample.loader "other.toml" Cases.other_toml "DYNACONF"
              "development" true None [] "development" ["staging"]
              Sample.settings eq_refl eq_refl eq_refl eq_refl eq_refl) _).
    simpl. auto.
  - (* "default" is absent and no base environment: strict mode raises *)
    refine (proj2 (proj2 (C4_undefined_environment (X := Sample.externals)
              Sample.loader "other.toml" Cases.other_toml "DYNACONF"
              "development" false None [] "default" ["development"]
              Sample.settings eq_refl eq_refl eq_refl eq_refl eq_refl))
              _ eq_refl).
    simpl. intros [H|[H|[H|[H|[H|[]]]]]]; discriminate H.
  - (* "staging" after "development": the block is written, then the
       lookup error *)
    refine (proj2 (proj2 (C4_undefined_environment (X := Cases.staged)
              Sample.loader "settings.toml" Sample.settings_toml "DYNACONF"
              "development" false None ["development"] "staging" []
              Sample.settings eq_refl eq_refl eq_refl eq_refl eq_refl))
              _ eq_refl).
    simpl. intros [H|[H|[H|[H|[H|[]]]]]]; discriminate H.
Defined.

Lemma C5_source_resolver_witness :
  load Sample.loader (FStr "settings.toml,merged.toml") None true
    Sample.settings
  = load_files Sample.loader ["settings.toml"; "merged.toml"] None true
      Sample.settings
  /\ load Sample.loader (FStr "a = 1,b.toml") None true Sample.settings
     = load_files Sample.loader ["a = 1,b.toml"] None true Sample.settings
  /\ load Sample.loader FNone None true Sample.settings
     = mkRun [] Sample.settings (Ok tt).
Proof.
  split; [|split].
  - refine (proj1 (proj1 (C5_source_resolver Sample.loader
             (FStr "settings.toml,merged.toml") None true Sample.settings)
             "settings.toml,merged.toml" eq_refl _) _).
    + discriminate.
    + repeat constructor.
  - refine (proj2 (proj1 (C5_source_resolver Sample.loader
             (FStr "a = 1,b.toml") None true Sample.settings)
             "a = 1,b.toml" eq_refl _) _).
    + discriminate.
    + intros H. inversion H as [|? ? Hhead _]. discriminate Hhead.
  - exact (proj2 (C5_source_resolver Sample.loader FNone None true
                    Sample.settings) eq_refl eq_refl).
Defined.

(** C7, as stated, fails for the reserved key: the filter "dynaconf_merge"
    normalizes to a key of the normalized mapping, and yet no [set] is made,
    because line 194 pops that key before the lookup of line 203. *)
Lemma C7_reserved_key_not_set :
  upperfy "dynaconf_merge" = "DYNACONF_MERGE"
  /\ Dict.get "DYNACONF_MERGE"
       (normalize [("a", VInt 1); ("dynaconf_merge", VBool true)])
     = Some (VBool true)
  /\ sink_calls
       (trace (_set_data_to_obj Sample.loader
                 [("a", VInt 1); ("dynaconf_merge", VBool true)]
                 "toml" "settings.toml" VNone (Some "dynaconf_merge")
                 (Some "development") Sample.settings))
     = [].
Proof. repeat split. Qed.

Lemma C7_single_key_filter_witness :
  sink_calls
    (trace (_set_data_to_obj Sample.loader [("x", VInt 1); ("y", VInt 2)]
              "toml" "settings.toml" VNone (Some "y") (Some "development")
              Sample.settings))
  = [SetKey "Y" (VInt 2) "toml" false (VBool false)]
  /\ sink_calls
       (trace (_set_data_to_obj Sample.loader [("x", VInt 1)]
                 "toml" "settings.toml" VNone (Some "y") (Some "development")
                 Sample.settings))
     = [].
Proof.
  split.
  - refine (proj1 (proj1 (proj2 (proj2 (C7_single_key_filter Sample.loader
             [("x", VInt 1); ("y", VInt 2)] "toml" "settings.toml" VNone "y"
             (Some "development") Sample.settings _ _ _))) (VInt 2) eq_refl));
      discriminate.
  - refine (proj1 (proj2 (proj2 (proj2 (C7_single_key_filter
             Sample.loader [("x", VInt 1)] "toml" "settings.toml" VNone "y"
             (Some "development") Sample.settings _ _ _))) eq_refl));
      discriminate.
Defined.

Lemma C9_envless_only_True_witness :
  sink_calls
    (trace (load Sample.loader (FStr "settings.toml") None true
              (("ENVLESS_MODE_FOR_DYNACONF", VStr "true") :: Sample.settings)))
  = [Update [("A", VInt 1)] "toml" false (VBool true)]
  /\ sink_calls
       (trace (load Sample.loader (FStr "settings.toml") None true
                 (("ENVLESS_MODE_FOR_DYNACONF", VInt 1) :: Sample.settings)))
     = [Update [("A", VInt 1)] "toml" false (VBool true)]
  /\ sink_calls
       (trace (load Sample.loader (FStr "settings.toml") None true
                 (("ENVLESS_MODE_FOR_DYNACONF", VBool true)
                    :: Sample.settings)))
     = [Update [("DEVELOPMENT",
                 VDict [("A", VInt 1); ("dynaconf_merge", VBool true)]);
                ("OTHER", VDict [("A", VInt 2)])] "toml" false (VBool false)].
Proof.
  split; [|split].
  - rewrite (C9_envless_only_True (X := Sample.externals) Sample.loader
               (FStr "settings.toml") None true
               (("ENVLESS_MODE_FOR_DYNACONF", VStr "true") :: Sample.settings));
      [reflexivity | discriminate].
  - rewrite (C9_envless_only_True (X := Sample.externals) Sample.loader
               (FStr "settings.toml") None true
               (("ENVLESS_MODE_FOR_DYNACONF", VInt 1) :: Sample.settings));
      [reflexivity | discriminate].
  - reflexivity.
Defined.

(** C10, as stated, fails in per-environment mode: [other.toml] has
    content, and yet [load] with the key "" makes no bulk update for it,
    because the source defines none of the environments of the list; all
    that happens is the warning for "default". *)
Lemma C10_source_without_environment_not_updated :
  value (get_source_date Cases.other_toml_loader ["other.toml"]
           Sample.settings)
  = Ok [("other.toml", Cases.other_toml)]
  /\ load Cases.other_toml_loader (FStr "other.toml") (Some "") true
       Sample.settings
     = mkRun [LoadedFile "other.toml"; LogDebug "toml_loader: other.toml";
              LogWarning "toml_loader: default env notdefined in other.toml"]
         Sample.settings (Ok tt)
  /\ sink_calls
       (trace (load Cases.other_toml_loader (FStr "other.toml") (Some "")
                 true Sample.settings))
     = [].
Proof. repeat split. Qed.

Lemma C10_falsy_key_is_bulk_witness :
  (exists source_data,
     value (get_source_date Sample.loader ["settings.toml"; "a = 1"]
              Cases.envless_settings) = Ok source_data
     /\ Dict.keys source_data = ["settings.toml"; "a = 1"]
     /\ sink_calls
          (trace (load Sample.loader (FList ["settings.toml"; "a = 1"])
                    (Some "") true Cases.envless_settings))
        = map (fun entry =>
                 let popped :=
                   Dict.pop "DYNACONF_MERGE" (VBool false)
                     (normalize (snd entry)) in
                 Update (snd popped) "toml"
                   (Str.contains "secret" (fst entry)) (fst popped))
              source_data)
  /\ exists tail,
       sink_calls
         (trace (load Sample.loader (FStr "settings.toml") (Some "") true
                   Sample.settings))
       = Update [("A", VInt 1)] "toml" false (VBool true) :: tail.
Proof.
  split.
  - destruct (proj1 (proj2 (C10_falsy_key_is_bulk (X := Sample.externals)
                Sample.loader (FList ["settings.toml"; "a = 1"]) true
                Cases.envless_settings)) eq_refl eq_refl)
      as [source_data [Hread [Hkeys [_ Hcalls]]]].
    exists source_data. split; [exact Hread|]. split; [exact Hkeys|].
    exact Hcalls.
  - refine (proj2 (proj2 (C10_falsy_key_is_bulk (X := Sample.externals)
              Sample.loader (FStr "settings.toml") true Sample.settings))
              [] "settings.toml" Sample.settings_toml [] "DYNACONF"
              "development" "development" ["default"] "development" []
              [("A", VInt 1); ("dynaconf_merge", VBool true)]
              eq_refl _ eq_refl eq_refl eq_refl eq_refl eq_refl eq_refl
              eq_refl eq_refl).
    discriminate.
Defined.

(** ** The further properties on the sample collaborators *)

Lemma upper_lower_ascii (c : ascii) :
  Str.upper_ascii (Str.lower_ascii c) = Str.upper_ascii c.
Proof. destruct c as [[] [] [] [] [] [] [] []]; reflexivity. Qed.

Lemma upper_lower (k : string) : Str.upper (Str.lower k) = Str.upper k.
Proof.
  induction k as [|c k IH]; simpl; auto.
  unfold Str.lower, Str.upper in *. simpl.
  now rewrite upper_lower_ascii, IH.
Qed.

Lemma X4_secrecy_follows_source_names_witness :
  Forall (secrecy_is true)
    (trace (load Cases.secrets_loader (FStr ".secrets.toml") None true
              Sample.settings))
  /\ Forall (secrecy_is false)
       (trace (load Sample.loader (FStr "settings.toml") None true
                 Sample.settings)).
Proof.
  split.
  - apply (X4_secrecy_follows_source_names (X := Sample.externals)
             Cases.secrets_loader (FStr ".secrets.toml") None true
             Sample.settings true).
    intros f [<-|[]]. reflexivity.
  - apply (X4_secrecy_follows_source_names (X := Sample.externals)
             Sample.loader (FStr "settings.toml") None true
             Sample.settings false).
    intros f [<-|[]]. reflexivity.
Defined.

Lemma X6_envless_one_update_per_source_witness :
  obj_get Cases.envless_settings "ENVLESS_MODE_FOR_DYNACONF" = VBool true
  /\ exists source_data,
       value (get_source_date Sample.loader ["settings.toml"; "a = 1"]
                Cases.envless_settings) = Ok source_data
       /\ value (load_files Sample.loader ["settings.toml"; "a = 1"] None true
                   Cases.envless_settings) = Ok tt
       /\ sink_calls
            (trace (load_files Sample.loader ["settings.toml"; "a = 1"] None
                      true Cases.envless_settings))
          = map (fun entry =>
                   let popped :=
                     Dict.pop "DYNACONF_MERGE" (VBool false)
                       (normalize (snd entry)) in
                   Update (snd popped) (identifier Sample.loader)
                     (Str.contains "secret" (fst entry)) (fst popped))
                source_data.
Proof.
  split; [reflexivity|].
  exact (X6_envless_one_update_per_source (X := Sample.externals)
           Sample.loader ["settings.toml"; "a = 1"] None true
           Cases.envless_settings eq_refl eq_refl).
Defined.

Lemma X7_envless_key_scan_witness :
  obj_get Cases.envless_settings "ENVLESS_MODE_FOR_DYNACONF" = VBool true
  /\ exists source_data,
       value (get_source_date Sample.loader ["settings.toml"; "a = 1"]
                Cases.envless_settings) = Ok source_data
       /\ value (load_files Sample.loader ["settings.toml"; "a = 1"]
                   (Some "a") true Cases.envless_settings) = Ok tt
       /\ sink_calls
            (trace (load_files Sample.loader ["settings.toml"; "a = 1"]
                      (Some "a") true Cases.envless_settings))
          = flat_map
              (fun entry =>
                 let popped :=
                   Dict.pop "DYNACONF_MERGE" (VBool false)
                     (normalize (snd entry)) in
                 match Dict.get (upperfy "a") (snd popped) with
                 | Some v =>
                     [SetKey (upperfy "a") v (identifier Sample.loader)
                        (Str.contains "secret" (fst entry)) (fst popped)]
                 | None => []
                 end)
              source_data.
Proof.
  split; [reflexivity|].
  refine (X7_envless_key_scan (X := Sample.externals) Sample.loader
            ["settings.toml"; "a = 1"] "a" true Cases.envless_settings
            eq_refl _ _); discriminate.
Defined.

Lemma X8_strict_failure_keeps_earlier_writes_witness :
  build_env_list (Externals := Cases.staged) Sample.settings
    (env Sample.loader) = ["development"; "staging"]
  /\ _load_all_envs (X := Cases.staged) Sample.loader
       [("settings.toml", Sample.settings_toml);
        ("merged.toml", Sample.merged_toml)] false None Sample.settings
     = mkRun (X := Cases.staged)
         [LogData "toml_loader: settings.toml[development]"
            (inr [("A", VInt 1); ("DYNACONF_MERGE", VBool true)]);
          Update [("A", VInt 1)] "toml" false (VBool true)]
         (Sample.settings ++ [("A", VInt 1)])
         (Raise
            (KeyError "toml_loader: staging env notdefined in settings.toml")).
Proof.
  split; [reflexivity|].
  refine (X8_strict_failure_keeps_earlier_writes (X := Cases.staged)
            Sample.loader ("settings.toml", Sample.settings_toml)
            [("merged.toml", Sample.merged_toml)] None "DYNACONF"
            "development" "staging" ["development"] [] Sample.settings
            eq_refl eq_refl eq_refl eq_refl eq_refl _).
  simpl. intros [H|[H|[H|[H|[H|[]]]]]]; discriminate H.
Defined.

Lemma X9_empty_section_witness :
  sink_calls
    (trace (load_env Sample.loader "settings.toml"
              [("development", VDict [])] VNone [] true None "Development"
              Sample.settings))
  = [Update [] "toml" false (VBool false)]
  /\ sink_calls
       (trace (load_env Sample.loader "settings.toml"
                 [("development", VNone)] VNone [] true (Some "a")
                 "Development" Sample.settings))
     = [].
Proof.
  split.
  - exact (proj1 (proj2 (X9_empty_section (X := Sample.externals)
             Sample.loader "settings.toml" [("development", VDict [])] VNone
             (VDict []) [] true None "Development" "development"
             Sample.settings eq_refl eq_refl eq_refl)) eq_refl).
  - refine (proj2 (proj2 (X9_empty_section (X := Sample.externals)
             Sample.loader "settings.toml" [("development", VNone)] VNone
             VNone [] true (Some "a") "Development" "development"
             Sample.settings eq_refl eq_refl eq_refl)) "a" eq_refl _ _);
      discriminate.
Defined.

Lemma X10_malformed_section_raises_witness :
  load_env Sample.loader "settings.toml" [("development", VInt 5)] VNone []
    true None "development" Sample.settings
  = mkRun [] Sample.settings (Raise AttributeError).
Proof.
  refine (X10_malformed_section_raises (X := Sample.externals) Sample.loader
            "settings.toml" [("development", VInt 5)] VNone (VInt 5) [] true
            None "development" Sample.settings eq_refl eq_refl _).
  intros d. discriminate.
Defined.

Lemma X11_environment_names_ignore_case_witness :
  recase Str.upper Sample.settings_toml
  = [("DEVELOPMENT", VDict [("A", VInt 1); ("dynaconf_merge", VBool true)]);
     ("OTHER", VDict [("A", VInt 2)])]
  /\ _load_all_envs Sample.loader
       [("settings.toml", recase Str.upper Sample.settings_toml)] true None
       Sample.settings
     = _load_all_envs Sample.loader
         [("settings.toml", Sample.settings_toml)] true None Sample.settings.
Proof.
  split; [reflexivity|].
  exact (proj1 (X11_environment_names_ignore_case (X := Sample.externals)
                  Sample.loader Str.upper
                  [("settings.toml", Sample.settings_toml)] true None
                  Sample.settings lower_upper)).
Defined.

Lemma X13_top_level_flag_reaches_every_call_witness :
  Dict.get "dynaconf_merge" (Dict.rekey Str.lower Sample.merged_toml)
  = Some (VBool true)
  /\ Forall (fun e => match merge_of e with
                      | Some merge => merge = VBool true
                      | None => True
                      end)
       (trace (load_source_envs Sample.loader true None
                 ("merged.toml", Sample.merged_toml) Sample.settings)).
Proof.
  split; [reflexivity|].
  exact (X13_top_level_flag_reaches_every_call (X := Sample.externals)
           Sample.loader ("merged.toml", Sample.merged_toml) true None
           (VBool true) Sample.settings eq_refl eq_refl).
Defined.

Lemma X14_source_without_requested_environments_witness :
  load_source_envs Sample.loader true None ("other.toml", Cases.other_toml)
    Sample.settings
  = mkRun [LogWarning "toml_loader: default env notdefined in other.toml"]
      Sample.settings (Ok tt).
Proof.
  refine (X14_source_without_requested_environments (X := Sample.externals)
            Sample.loader "other.toml" Cases.other_toml None "DYNACONF"
            "development" Sample.settings eq_refl eq_refl _).
  intros name [<-|[<-|[]]]; reflexivity.
Defined.

Lemma X15_configuration_keys_ignore_case_witness :
  _set_data_to_obj Sample.loader [("a", VInt 1); ("b", VInt 2)] "toml"
    "settings.toml" VNone (Some "b") None Sample.settings
  = _set_data_to_obj Sample.loader [("A", VInt 1); ("B", VInt 2)] "toml"
      "settings.toml" VNone (Some "B") None Sample.settings.
Proof.
  destruct (X15_configuration_keys_ignore_case (X := Sample.externals)
              Sample.loader Str.lower [("A", VInt 1); ("B", VInt 2)] "toml"
              "settings.toml" VNone (Some "b") "B" None Sample.settings
              upper_lower) as [Hdata Hkey].
  etransitivity; [exact Hdata | apply Hkey; discriminate].
Defined.

Lemma X3_colliding_keys_later_value_wins_witness :
  normalize [("a", VInt 1); ("b", VInt 2); ("A", VInt 3)]
  = [("A", VInt 3); ("B", VInt 2)]
  /\ sink_calls
       (trace (_set_data_to_obj Sample.loader
                 [("a", VInt 1); ("b", VInt 2); ("A", VInt 3)] "toml"
                 "settings.toml" VNone None None Sample.settings))
     = [Update [("A", VInt 3); ("B", VInt 2)] "toml" false (VBool false)]
  /\ sink_calls
       (trace (_set_data_to_obj Sample.loader
                 [("a", VInt 1); ("b", VInt 2); ("A", VInt 3)] "toml"
                 "settings.toml" VNone (Some "a") None Sample.settings))
     = [SetKey "A" (VInt 3) "toml" false (VBool false)].
Proof.
  split; [reflexivity|]. split.
  - exact (proj1 (proj2 (proj2 (X3_colliding_keys_later_value_wins
             (X := Sample.externals) Sample.loader
             [("a", VInt 1); ("b", VInt 2); ("A", VInt 3)] "toml"
             "settings.toml" VNone "a" None Sample.settings)))).
  - refine (proj2 (proj2 (proj2 (proj2 (proj2
             (X3_colliding_keys_later_value_wins
                (X := Sample.externals) Sample.loader
                [("a", VInt 1); ("b", VInt 2); ("A", VInt 3)] "toml"
                "settings.toml" VNone "a" None Sample.settings))))) _ _ _);
      discriminate.
Defined.

Lemma X16_readers_consulted_at_resolved_sources_witness :
  file_reader Sample.loader "merged.toml" = Some Sample.merged_toml
  /\ file_reader Sample.other_loader "merged.toml"
     = Some [("elsewhere", VInt 0)]
  /\ load Sample.loader (FStr "settings.toml") None true Sample.settings
     = load Sample.other_loader (FStr "settings.toml") None true
         Sample.settings.
Proof.
  split; [reflexivity|]. split; [reflexivity|].
  refine (X16_readers_consulted_at_resolved_sources (X := Sample.externals)
            Sample.loader Sample.other_loader (FStr "settings.toml") None
            true Sample.settings eq_refl eq_refl eq_refl _).
  intros f [<-|[]]. reflexivity.
Defined.
